(** * Sleep_Detector: the detector's reply normalisation and the /detect gateway

    A shallow embedding of [groq_vision.py] (the function [detect_sleep]) and of
    [hackersss/app.py] (the route [detect]), with the properties of the
    specification stated and proved over it.

    Modelling choices.
    - A Python [str] is the list of its code points.
    - The values that [json.loads] and [request.get_json] produce are the type
      [pyvalue]; a [dict] is an association list in insertion order with
      distinct keys, as CPython keeps it.
    - Exceptions are explicit: a piece of code ends as [Ok v] or [Raise e].  The
      two [except] clauses of [detect_sleep] only ask whether the exception is
      a [json.JSONDecodeError], so that is all an exception records besides
      what [str(e)] prints.  Exceptions that are not instances of [Exception]
      (an interrupt of the process) are not modelled.
    - The hosted vision model is a function from the dispatched URL to the
      outcome of the call; calls are logged as events.
    - Two tables of the Python runtime stay parameters ([runtime]): the
      lowercase mapping of text outside ASCII, and the wording of the
      interpreter's own error messages.  So do its two limits that a reply
      can reach: the most digits of an integer, and the recursion limit.
    - [json.loads] is embedded as a scanner followed by a pushdown parser over
      the tokens, after CPython's [json.decoder] and [json.scanner].  It ends
      in one of three ways: with the value, with a [JSONDecodeError], or with
      an exception of another class, which the second handler of
      [detect_sleep] catches: the ValueError of an integer with more digits
      than the limit, raised where the numeral is converted, and the
      RecursionError of a text that nests too deep for the stack, which the
      runtime tells.  A [float] keeps the numeral of the text: of the double
      it rounds to, only whether it is zero is computed. *)

From Stdlib Require Import Ascii String List NArith ZArith Bool Lia.
Import ListNotations.

Set Warnings "-register-all".

Local Open Scope N_scope.

(* ================================================================= *)
(** ** Python strings *)

Module Str.

(** A [str]: its code points, in order. *)
Definition str : Type := list N.

(** The code point of an ASCII character, and the [str] of an ASCII literal. *)
Definition chr (a : ascii) : N := N_of_ascii a.

Definition py (s : string) : str := map chr (list_ascii_of_string s).

(** A literal in which every apostrophe stands for a double quote: JSON text
    is written [dq "{'status':'awake'}"]. *)
Definition dq (s : string) : str :=
  map (fun c => if c =? 39 then 34 else c) (py s).

(** The two separators of the code: [","] and the line feed. *)
Definition comma : N := 44.
Definition newline : N := 10.

(** [a == b] on strings. *)
Fixpoint eqb (a b : str) : bool :=
  match a, b with
  | [], [] => true
  | x :: a', y :: b' => (x =? y) && eqb a' b'
  | _, _ => false
  end.

(** [s.startswith(p)] *)
Fixpoint startswith (p s : str) : bool :=
  match p, s with
  | [], _ => true
  | x :: p', y :: s' => (x =? y) && startswith p' s'
  | _ :: _, [] => false
  end.

(** [needle in hay] *)
Fixpoint contains (needle hay : str) : bool :=
  startswith needle hay ||
  match hay with
  | [] => false
  | _ :: hay' => contains needle hay'
  end.

(** [s.split(sep)] for a separator of one character. *)
Fixpoint split (sep : N) (s : str) : list str :=
  match s with
  | [] => [[]]
  | c :: s' =>
      if c =? sep then [] :: split sep s'
      else match split sep s' with
           | piece :: pieces => (c :: piece) :: pieces
           | [] => [[c]]
           end
  end.

(** [sep.join(pieces)] *)
Fixpoint join (sep : str) (pieces : list str) : str :=
  match pieces with
  | [] => []
  | [piece] => piece
  | piece :: pieces' => piece ++ sep ++ join sep pieces'
  end.

(** [c.isspace()], CPython's [Py_UNICODE_ISSPACE]. *)
Definition isspace (c : N) : bool :=
  ((9 <=? c) && (c <=? 13)) || ((28 <=? c) && (c <=? 32))
  || (c =? 133) || (c =? 160) || (c =? 5760)
  || ((8192 <=? c) && (c <=? 8202))
  || (c =? 8232) || (c =? 8233) || (c =? 8239) || (c =? 8287) || (c =? 12288).

Fixpoint lstrip (s : str) : str :=
  match s with
  | [] => []
  | c :: s' => if isspace c then lstrip s' else s
  end.

Definition rstrip (s : str) : str := rev (lstrip (rev s)).

(** [s.strip()] *)
Definition strip (s : str) : str := rstrip (lstrip s).

(** [s.lower()] on ASCII text: the letters A to Z move to a to z. *)
Definition is_ascii (s : str) : bool := forallb (fun c => c <? 128) s.

Definition lower_ascii_char (c : N) : N :=
  if (65 <=? c) && (c <=? 90) then c + 32 else c.

End Str.

Export Str.

(* ================================================================= *)
(** ** Python values *)

(** A [float] as [json.loads] reads it: the two infinities, not-a-number, or
    the decimal numeral [± digits · 10 ^ exponent] of the text. *)
Inductive pyfloat : Type :=
| FNaN
| FInf (negative : bool)
| FDec (negative : bool) (digits : N) (exponent : Z).

(** The values of [json.loads]: [None], [bool], [int], [float], [str], [list]
    and [dict] with [str] keys. *)
Inductive pyvalue : Type :=
| PyNone
| PyBool (b : bool)
| PyInt (z : Z)
| PyFloat (f : pyfloat)
| PyStr (s : str)
| PyList (items : list pyvalue)
| PyDict (items : list (str * pyvalue)).

Inductive pytype : Type :=
| NoneType | TBool | TInt | TFloat | TStr | TList | TDict.

(** [type(v)] *)
Definition type_of (v : pyvalue) : pytype :=
  match v with
  | PyNone => NoneType
  | PyBool _ => TBool
  | PyInt _ => TInt
  | PyFloat _ => TFloat
  | PyStr _ => TStr
  | PyList _ => TList
  | PyDict _ => TDict
  end.

(** *** Dictionaries *)

(** A [dict] with [str] keys: its items in insertion order, keys distinct. *)
Definition dict : Type := list (str * pyvalue).

Module Dict.

(** [d.get(k)] *)
Fixpoint get (k : str) (d : dict) : option pyvalue :=
  match d with
  | [] => None
  | (k', v) :: d' => if Str.eqb k k' then Some v else get k d'
  end.

(** [k in d] *)
Definition mem (k : str) (d : dict) : bool :=
  match get k d with Some _ => true | None => false end.

(** [d[k] = v]: a key already there keeps its place, a new key goes last. *)
Fixpoint set (k : str) (v : pyvalue) (d : dict) : dict :=
  match d with
  | [] => [(k, v)]
  | (k', v') :: d' =>
      if Str.eqb k k' then (k', v) :: d' else (k', v') :: set k v d'
  end.

(** [dict(pairs)] *)
Definition of_pairs (pairs : list (str * pyvalue)) : dict :=
  fold_left (fun d kv => set (fst kv) (snd kv) d) pairs [].

End Dict.

(* ================================================================= *)
(** ** Exceptions *)

(** The errors the interpreter itself raises in the two functions. *)
Inductive fault : Type :=
| NoAttribute (t : pytype) (attr : str)  (* AttributeError: v.attr *)
| NotAContainer (t : pytype)             (* TypeError: x in v *)
| NotSubscriptable (t : pytype)          (* TypeError: v[k] *)
| BadIndex (t : pytype)                  (* TypeError: a str as index of a list or str *)
| NoItemAssignment (t : pytype)          (* TypeError: v[k] = x *)
| NoLen (t : pytype)                     (* TypeError: len(v) *)
| MissingKey (k : str)                   (* KeyError: d[k] *)
| IndexOutOfRange                        (* IndexError: choices[0] *)
| Unbound (variable : str)               (* UnboundLocalError *)
| IntegerTooLong (limit digits : N)      (* ValueError: an integer of too many digits *)
| RecursionDepth (message : str).        (* RecursionError, with its message *)

(** An instance of [Exception] that is not a [json.JSONDecodeError]: a fault
    of the interpreter, or whatever the model client raised, with its text. *)
Inductive exception : Type :=
| Fault (f : fault)
| ClientFailure (message : str).

(** What a [try] body can raise, as the [except] clauses tell it apart. *)
Inductive raised : Type :=
| JSONDecodeError
| Other (e : exception).

(** How a piece of Python code ends: with a value, or by raising. *)
Inductive outcome (A : Type) : Type :=
| Ok (a : A)
| Raise (e : raised).

Arguments Ok {A} a.
Arguments Raise {A} e.

Definition bind {A B : Type} (c : outcome A) (k : A -> outcome B) : outcome B :=
  match c with
  | Ok a => k a
  | Raise e => Raise e
  end.

Notation "x <- c ;; k" := (bind c (fun x => k))
  (at level 61, c at next level, right associativity).

Definition throw {A : Type} (f : fault) : outcome A := Raise (Other (Fault f)).

(** The parts of the Python runtime that stay parameters: [str.lower] on text
    that is not all ASCII, the text of the interpreter's own errors, and the
    two limits of the interpreter that [json.loads] can reach.  The first is
    [sys.get_int_max_str_digits()], the most digits that the numeral of an
    integer may have, 0 when there is no limit.  The second is the recursion
    limit: [recursion_error text] is the message of the RecursionError with
    which parsing [text] ends when the stack runs out, and [None] when it
    does not; that depends on the depth of the call stack at the time and
    on how the interpreter counts its frames. *)
Record runtime : Type := {
  unicode_lower : str -> str;
  fault_text : fault -> str;
  int_max_str_digits : N;
  recursion_error : str -> option str
}.

(** [s.lower()] *)
Definition lower (rt : runtime) (s : str) : str :=
  if is_ascii s then map lower_ascii_char s else unicode_lower rt s.

(** [str(e)] *)
Definition exception_text (rt : runtime) (e : exception) : str :=
  match e with
  | Fault f => fault_text rt f
  | ClientFailure message => message
  end.

(* ================================================================= *)
(** ** Operations on values *)

(** [bool(f)] for a float: false exactly when the numeral rounds to zero,
    that is when it is at most half the least positive double, [2 ^ -1075]. *)
Definition float_is_zero (f : pyfloat) : bool :=
  match f with
  | FNaN | FInf _ => false
  | FDec _ digits exponent =>
      (digits =? 0) ||
      ((exponent <? 0)%Z &&
       (Z.of_N digits * 2 ^ 1075 <=? 10 ^ (- exponent))%Z)
  end.

(** [bool(v)] *)
Definition truthy (v : pyvalue) : bool :=
  match v with
  | PyNone => false
  | PyBool b => b
  | PyInt z => negb (z =? 0)%Z
  | PyFloat f => negb (float_is_zero f)
  | PyStr s => match s with [] => false | _ => true end
  | PyList items => match items with [] => false | _ => true end
  | PyDict items => match items with [] => false | _ => true end
  end.

(** [v == s] for a string [s] *)
Definition is_str (s : str) (v : pyvalue) : bool :=
  match v with
  | PyStr s' => Str.eqb s s'
  | _ => false
  end.

(** [k in v] for a string [k]: a substring of a [str], an element of a
    [list], a key of a [dict]. *)
Definition py_in (k : str) (v : pyvalue) : outcome bool :=
  match v with
  | PyStr s => Ok (contains k s)
  | PyList items => Ok (existsb (is_str k) items)
  | PyDict items => Ok (Dict.mem k items)
  | _ => throw (NotAContainer (type_of v))
  end.

(** [v[k]] for a string [k] *)
Definition py_getitem (v : pyvalue) (k : str) : outcome pyvalue :=
  match v with
  | PyDict items =>
      match Dict.get k items with
      | Some x => Ok x
      | None => throw (MissingKey k)
      end
  | PyList _ | PyStr _ => throw (BadIndex (type_of v))
  | _ => throw (NotSubscriptable (type_of v))
  end.

(** [v[k] = x] for a string [k]; the result is the container afterwards. *)
Definition py_setitem (v : pyvalue) (k : str) (x : pyvalue) : outcome pyvalue :=
  match v with
  | PyDict items => Ok (PyDict (Dict.set k x items))
  | PyList _ => throw (BadIndex TList)
  | _ => throw (NoItemAssignment (type_of v))
  end.

(** [len(v)] *)
Definition py_len (v : pyvalue) : outcome N :=
  match v with
  | PyStr s => Ok (N.of_nat (length s))
  | PyList items => Ok (N.of_nat (length items))
  | PyDict items => Ok (N.of_nat (length items))
  | _ => throw (NoLen (type_of v))
  end.

(** [v.attr] where [attr] is a method of [str]: the string, or the
    AttributeError of any other type. *)
Definition as_str (attr : string) (v : pyvalue) : outcome str :=
  match v with
  | PyStr s => Ok s
  | _ => throw (NoAttribute (type_of v) (py attr))
  end.

(* ================================================================= *)
(** ** [json.loads] *)

Module Json.

(** *** Numbers *)

Definition is_digit (c : N) : bool := (48 <=? c) && (c <=? 57).

Fixpoint span_digits (s : str) : str * str :=
  match s with
  | [] => ([], [])
  | c :: s' =>
      if is_digit c
      then let (ds, rest) := span_digits s' in (c :: ds, rest)
      else ([], s)
  end.

Definition digits_value (ds : str) : N :=
  fold_left (fun acc c => 10 * acc + (c - 48)) ds 0.

(** The digits of the integer part at the head of [s]: a zero stands alone,
    any other digit takes the digits that follow it. *)
Definition integer_part (s : str) : str * str :=
  match s with
  | 48 :: s' => ([48], s')
  | _ => span_digits s
  end.

(** The digits of the fraction at the head of [s]: a point is read only
    when a digit follows it. *)
Definition fraction (s : str) : str * str :=
  match s with
  | 46 :: s' =>
      match span_digits s' with
      | ([], _) => ([], s)
      | (ds, rest) => (ds, rest)
      end
  | _ => ([], s)
  end.

(** The exponent at the head of [s]: an [e] or [E] and an optional sign are
    read only when a digit follows them. *)
Definition exponent_part (s : str) : option Z * str :=
  let after_sign (negative : bool) (s' : str) :=
    match span_digits s' with
    | ([], _) => (None, s)
    | (ds, rest) =>
        let n := Z.of_N (digits_value ds) in
        (Some (if negative then (- n)%Z else n), rest)
    end in
  match s with
  | 101 :: s' | 69 :: s' =>
      match s' with
      | 43 :: s'' => after_sign false s''
      | 45 :: s'' => after_sign true s''
      | _ => after_sign false s'
      end
  | _ => (None, s)
  end.

(** *** The scanner *)

(** The tokens of a text.  The numeral of an integer comes with the count
    of its digits, which the parser holds against the limit of the
    interpreter when it converts the numeral.  [TError] stands where the
    text stops being made of tokens; nothing follows it. *)
Inductive token : Type :=
| TLBrace | TRBrace | TLBracket | TRBracket | TComma | TColon
| TValue (v : pyvalue)
| TInt (digits : N) (z : Z)
| TError.

(** The numeral at the head of [s], read as [_match_number_unicode] reads
    it, and the number of characters it takes: an optional minus sign, an
    integer part, then a fraction and an exponent where they are complete.
    It is an [int] when it has neither fraction nor exponent, else a
    [float].  What follows the numeral is left to the parser. *)
Definition match_number (s : str) : option (token * nat) :=
  let (negative, s1) :=
    match s with
    | 45 :: s' => (true, s')
    | _ => (false, s)
    end in
  let (int_digits, s2) := integer_part s1 in
  match int_digits with
  | [] => None
  | _ :: _ =>
      let (frac_digits, s3) := fraction s2 in
      let (exponent, s4) := exponent_part s3 in
      let taken := (length s - length s4)%nat in
      match frac_digits, exponent with
      | [], None =>
          let n := Z.of_N (digits_value int_digits) in
          Some (TInt (N.of_nat (length int_digits))
                     (if negative then (- n)%Z else n),
                taken)
      | _, _ =>
          let e := match exponent with Some e => e | None => 0%Z end in
          Some (TValue
                  (PyFloat
                     (FDec negative
                           (digits_value (int_digits ++ frac_digits))
                           (e - Z.of_nat (length frac_digits)))),
                taken)
      end
  end.

(** Where the scanner is: between tokens, inside a string (the characters
    read so far, last first), or dropping [S n] characters that a
    look-ahead has already read. *)
Inductive scan_mode : Type :=
| Between
| InString (acc : str)
| Skip (n : nat) (next : scan_mode).

Definition skipping (k : nat) (next : scan_mode) : scan_mode :=
  match k with
  | O => next
  | S n => Skip n next
  end.

Definition is_json_space (c : N) : bool :=
  (c =? 32) || (c =? 9) || (c =? 10) || (c =? 13).

Definition punctuation (c : N) : option token :=
  if c =? chr "{" then Some TLBrace
  else if c =? chr "}" then Some TRBrace
  else if c =? chr "[" then Some TLBracket
  else if c =? chr "]" then Some TRBracket
  else if c =? chr "," then Some TComma
  else if c =? chr ":" then Some TColon
  else None.

(** The character a two-character escape stands for. *)
Definition simple_escape (c : N) : option N :=
  if c =? 34 then Some 34            (* quote *)
  else if c =? 92 then Some 92       (* backslash *)
  else if c =? chr "/" then Some (chr "/")
  else if c =? chr "b" then Some 8
  else if c =? chr "f" then Some 12
  else if c =? chr "n" then Some 10
  else if c =? chr "r" then Some 13
  else if c =? chr "t" then Some 9
  else None.

Definition hex_digit (c : N) : option N :=
  if is_digit c then Some (c - 48)
  else if (97 <=? c) && (c <=? 102) then Some (c - 87)
  else if (65 <=? c) && (c <=? 70) then Some (c - 55)
  else None.

(** The number that the first four characters of [s] spell in hexadecimal. *)
Definition hex4 (s : str) : option N :=
  match s with
  | a :: b :: c :: d :: _ =>
      match hex_digit a, hex_digit b, hex_digit c, hex_digit d with
      | Some a, Some b, Some c, Some d => Some (((a * 16 + b) * 16 + c) * 16 + d)
      | _, _, _, _ => None
      end
  | _ => None
  end.

(** [s] follows a backslash and a [u]: the code point of the escape and how
    many characters of [s] it takes, four, or ten when a high surrogate is
    followed by the escape of a low one and the two are joined. *)
Definition unicode_escape (s : str) : option (N * nat) :=
  match hex4 s with
  | None => None
  | Some hi =>
      if (55296 <=? hi) && (hi <=? 56319) then
        match skipn 4 s with
        | 92 :: 117 :: s' =>
            match hex4 s' with
            | Some lo =>
                if (56320 <=? lo) && (lo <=? 57343)
                then Some (65536 + (hi - 55296) * 1024 + (lo - 56320), 10%nat)
                else Some (hi, 4%nat)
            | None => Some (hi, 4%nat)
            end
        | _ => Some (hi, 4%nat)
        end
      else Some (hi, 4%nat)
  end.

Fixpoint scan (m : scan_mode) (s : str) {struct s} : list token :=
  match s with
  | [] =>
      match m with
      | Between => []
      | InString _ | Skip _ _ => [TError]
      end
  | c :: s' =>
      match m with
      | Skip n next => scan (skipping n next) s'
      | Between =>
          if is_json_space c then scan Between s'
          else match punctuation c with
          | Some t => t :: scan Between s'
          | None =>
          if c =? 34 then scan (InString []) s'
          else if startswith (py "null") s
            then TValue PyNone :: scan (skipping 3 Between) s'
          else if startswith (py "true") s
            then TValue (PyBool true) :: scan (skipping 3 Between) s'
          else if startswith (py "false") s
            then TValue (PyBool false) :: scan (skipping 4 Between) s'
          else if startswith (py "NaN") s
            then TValue (PyFloat FNaN) :: scan (skipping 2 Between) s'
          else if startswith (py "Infinity") s
            then TValue (PyFloat (FInf false)) :: scan (skipping 7 Between) s'
          else if startswith (py "-Infinity") s
            then TValue (PyFloat (FInf true)) :: scan (skipping 8 Between) s'
          else
            match match_number s with
            | Some (t, taken) => t :: scan (skipping (pred taken) Between) s'
            | None => [TError]
            end
          end
      | InString acc =>
          if c =? 34 then TValue (PyStr (rev acc)) :: scan Between s'
          else if c =? 92 then
            match s' with
            | [] => [TError]
            | e :: s'' =>
                if e =? chr "u" then
                  match unicode_escape s'' with
                  | Some (cp, used) => scan (skipping used (InString (cp :: acc))) s''
                  | None => [TError]
                  end
                else
                  match simple_escape e with
                  | Some x => scan (InString (x :: acc)) s''
                  | None => [TError]
                  end
            end
          else if c <? 32 then [TError]
          else scan (InString (c :: acc)) s'
      end
  end.

(** *** The parser *)

(** An open container: a list with the elements read so far, or a dict with
    the pairs read so far and the key whose value is awaited (last first). *)
Inductive frame : Type :=
| FList (done : list pyvalue)
| FDict (done : list (str * pyvalue)) (key : option str).

Inductive expecting : Type :=
| Value
| ValueOrClose
| KeyOrClose
| Key
| Colon
| CommaOrClose
| Nothing (v : pyvalue).

Definition pstate : Type := (expecting * list frame)%type.

(** A value is complete: it is the document, an element, or a key's value. *)
Definition complete (v : pyvalue) (stack : list frame) : outcome pstate :=
  match stack with
  | [] => Ok (Nothing v, [])
  | FList done :: stack' => Ok (CommaOrClose, FList (v :: done) :: stack')
  | FDict done (Some k) :: stack' =>
      Ok (CommaOrClose, FDict ((k, v) :: done) None :: stack')
  | FDict _ None :: _ => Raise JSONDecodeError
  end.

(** [int(numeral)] refuses a numeral of more than 640 digits that has more
    digits than the limit, when there is a limit. *)
Definition too_long (limit digits : N) : bool :=
  (640 <? digits) && (0 <? limit) && (limit <? digits).

(** A value is awaited.  An integer is converted here, and only here: a
    numeral where no value is awaited is a syntax error whatever its
    length. *)
Definition start_value (limit : N) (t : token) (stack : list frame)
  : outcome pstate :=
  match t with
  | TValue v => complete v stack
  | TInt digits z =>
      if too_long limit digits then throw (IntegerTooLong limit digits)
      else complete (PyInt z) stack
  | TLBracket => Ok (ValueOrClose, FList [] :: stack)
  | TLBrace => Ok (KeyOrClose, FDict [] None :: stack)
  | _ => Raise JSONDecodeError
  end.

Definition close_list (stack : list frame) : outcome pstate :=
  match stack with
  | FList done :: stack' => complete (PyList (rev done)) stack'
  | _ => Raise JSONDecodeError
  end.

Definition close_dict (stack : list frame) : outcome pstate :=
  match stack with
  | FDict done None :: stack' =>
      complete (PyDict (Dict.of_pairs (rev done))) stack'
  | _ => Raise JSONDecodeError
  end.

Definition take_key (t : token) (stack : list frame) : outcome pstate :=
  match t, stack with
  | TValue (PyStr k), FDict done None :: stack' =>
      Ok (Colon, FDict done (Some k) :: stack')
  | _, _ => Raise JSONDecodeError
  end.

Definition step (limit : N) (st : pstate) (t : token) : outcome pstate :=
  let (e, stack) := st in
  match e with
  | Value => start_value limit t stack
  | ValueOrClose =>
      match t with
      | TRBracket => close_list stack
      | _ => start_value limit t stack
      end
  | KeyOrClose =>
      match t with
      | TRBrace => close_dict stack
      | _ => take_key t stack
      end
  | Key => take_key t stack
  | Colon =>
      match t with
      | TColon => Ok (Value, stack)
      | _ => Raise JSONDecodeError
      end
  | CommaOrClose =>
      match t, stack with
      | TComma, FList _ :: _ => Ok (Value, stack)
      | TComma, FDict _ _ :: _ => Ok (Key, stack)
      | TRBracket, _ => close_list stack
      | TRBrace, _ => close_dict stack
      | _, _ => Raise JSONDecodeError
      end
  | Nothing _ => Raise JSONDecodeError
  end.

(** The tokens are taken in the order of the text, so that of a syntax
    error and an integer that is too long, the one that comes first is
    raised. *)
Fixpoint run (limit : N) (st : pstate) (ts : list token) : outcome pyvalue :=
  match ts with
  | [] =>
      match st with
      | (Nothing v, _) => Ok v
      | _ => Raise JSONDecodeError
      end
  | t :: ts' => st' <- step limit st t ;; run limit st' ts'
  end.

(** Parsing under a limit on the digits of an integer: the value, a
    [JSONDecodeError], or the ValueError of the limit. *)
Definition parse (limit : N) (s : str) : outcome pyvalue :=
  run limit (Value, []) (scan Between s).

(** The value that a text denotes, if it is JSON: what parsing gives when
    no limit is in the way. *)
Definition value (s : str) : option pyvalue :=
  match parse 0 s with
  | Ok v => Some v
  | Raise _ => None
  end.

(** A text in which a bracket can open inside another has two opening
    brackets at least. *)
Definition is_opening (c : N) : bool := (c =? chr "[") || (c =? chr "{").

Definition nests (s : str) : bool :=
  match filter is_opening s with
  | _ :: _ :: _ => true
  | _ => false
  end.

(** [json.loads(s)] in a runtime.  The stack can run out only on a text
    that nests: a text that does not takes fewer frames than the call of
    the client, which has returned when line 88 is reached. *)
Definition loads (rt : runtime) (s : str) : outcome pyvalue :=
  match (if nests s then recursion_error rt s else None) with
  | Some message => throw (RecursionDepth message)
  | None => parse (int_max_str_digits rt) s
  end.

End Json.

(* ================================================================= *)
(** ** The vision model and the events of a request *)

(** What [client.chat.completions.create] does with a dispatched URL: it
    raises, or it returns a response, of which the code reads the
    [message.content] of each choice ([None] when the model left it out). *)
Inductive api_outcome : Type :=
| ApiRaises (e : raised)
| ApiReturns (choices : list (option str)).

(** The calls a request makes: to the model, with the URL of the image, and
    to [detect_sleep], with its argument. *)
Inductive event : Type :=
| ModelCall (url : str)
| DetectorCall (base64_image : pyvalue).

(** The replies of a [/detect] request: a status code with a JSON body, or
    an exception that leaves the view function (Flask answers 500). *)
Inductive http_response : Type :=
| Http (code : N) (body : pyvalue)
| Unhandled (e : raised).

(** The dict literal [{"status": ..., "confidence": ..., "details": ...}]. *)
Definition detection_result (status confidence details : str) : pyvalue :=
  PyDict [(py "status", PyStr status);
          (py "confidence", PyStr confidence);
          (py "details", PyStr details)].

(* ================================================================= *)
(** ** groq_vision.py *)

Section Detector.

Variable rt : runtime.
Variable client : str -> api_outcome.

(** Lines 51-54: the data URI of the image. *)
Definition image_url (base64_image : pyvalue) : outcome str :=
  s <- as_str "startswith" base64_image ;;
  if negb (startswith (py "data:") s)
  then Ok (py "data:image/jpeg;base64," ++ s)
  else Ok s.

(** Line 79: [response.choices[0].message.content.strip()]. *)
Definition response_text (choices : list (option str)) : outcome str :=
  match choices with
  | [] => throw IndexOutOfRange
  | None :: _ => throw (NoAttribute NoneType (py "strip"))
  | Some content :: _ => Ok (strip content)
  end.

(** Lines 83-86: a reply that opens with a code fence loses every line that
    starts with one. *)
Definition strip_fence (result_text : str) : str :=
  if startswith (py "```") result_text then
    let lines := split newline result_text in
    let json_lines := filter (fun l => negb (startswith (py "```") l)) lines in
    strip (join [newline] json_lines)
  else result_text.

(** Lines 91-96, one key: [if k not in result: result[k] = default]. *)
Definition backfill (k default : string) (result : pyvalue) : outcome pyvalue :=
  present <- py_in (py k) result ;;
  if negb present then py_setitem result (py k) (PyStr (py default))
  else Ok result.

(** Lines 91-103: the required keys, then the status. *)
Definition normalize (result : pyvalue) : outcome pyvalue :=
  result <- backfill "status" "awake" result ;;
  result <- backfill "confidence" "low" result ;;
  result <- backfill "details" "Analysis completed" result ;;
  status <- py_getitem result (py "status") ;;
  s <- as_str "lower" status ;;
  result <- py_setitem result (py "status") (PyStr (strip (lower rt s))) ;;
  status <- py_getitem result (py "status") ;;
  if negb (is_str (py "sleeping") status || is_str (py "awake") status)
  then py_setitem result (py "status") (PyStr (py "awake"))
  else Ok result.

(** The body of the [try], lines 50-103.  Besides the events and the way it
    ends, it gives the binding of the local [result_text] at that point
    ([None] while the name is unbound), which the first handler reads. *)
Definition try_body (base64_image : pyvalue)
  : list event * option str * outcome pyvalue :=
  match image_url base64_image with
  | Raise e => ([], None, Raise e)
  | Ok url =>
      match client url with
      | ApiRaises e => ([ModelCall url], None, Raise e)
      | ApiReturns choices =>
          match response_text choices with
          | Raise e => ([ModelCall url], None, Raise e)
          | Ok text =>
              let result_text := strip_fence text in
              ([ModelCall url], Some result_text,
               result <- Json.loads rt result_text ;; normalize result)
          end
      end
  end.

(** Lines 105-117, [except json.JSONDecodeError]. *)
Definition on_decode_error (result_text : option str) : outcome pyvalue :=
  match result_text with
  | None => throw (Unbound (py "result_text"))
  | Some text =>
      if contains (py "sleep") (lower rt text)
      then Ok (detection_result
                 (py "sleeping") (py "medium")
                 (py "Person appears to be sleeping based on image analysis"))
      else Ok (detection_result
                 (py "awake") (py "low")
                 (py "Could not parse model response clearly"))
  end.

(** Lines 119-124, [except Exception as e]. *)
Definition on_exception (e : exception) : pyvalue :=
  detection_result
    (py "error") (py "none")
    (py "Error during analysis: " ++ exception_text rt e).

(** [detect_sleep(base64_image)] *)
Definition detect_sleep (base64_image : pyvalue) : list event * outcome pyvalue :=
  let '(events, result_text, ending) := try_body base64_image in
  (events,
   match ending with
   | Ok result => Ok result
   | Raise JSONDecodeError => on_decode_error result_text
   | Raise (Other e) => Ok (on_exception e)
   end).

(* ================================================================= *)
(** ** hackersss/app.py *)

Definition no_image : pyvalue :=
  detection_result
    (py "error") (py "none")
    (py "No image data provided. Send JSON with 'image' key containing base64 data.").

Definition too_small : pyvalue :=
  detection_result
    (py "error") (py "none") (py "Image data appears too small or invalid.").

(** Line 46: the part after the last comma, when there is a comma. *)
Definition raw_b64 (base64_image : pyvalue) : outcome pyvalue :=
  has_comma <- py_in (py ",") base64_image ;;
  if has_comma
  then s <- as_str "split" base64_image ;; Ok (PyStr (last (split comma s) []))
  else Ok base64_image.

(** [detect()], on the value [data] that [request.get_json()] returned; a
    body that is not JSON is answered by Flask inside that call, before
    line 36. *)
Definition detect (data : pyvalue) : list event * http_response :=
  if negb (truthy data) then ([], Http 400 no_image)
  else
    match py_in (py "image") data with
    | Raise e => ([], Unhandled e)
    | Ok false => ([], Http 400 no_image)
    | Ok true =>
        match py_getitem data (py "image") with
        | Raise e => ([], Unhandled e)
        | Ok base64_image =>
            match (raw <- raw_b64 base64_image ;; py_len raw) with
            | Raise e => ([], Unhandled e)
            | Ok size =>
                if size <? 100 then ([], Http 400 too_small)
                else
                  let (events, ending) := detect_sleep base64_image in
                  (DetectorCall base64_image :: events,
                   match ending with
                   | Ok result => Http 200 result
                   | Raise e => Unhandled e
                   end)
            end
        end
    end.

End Detector.

(* ================================================================= *)
(** ** The vocabulary of the specification *)

(** The model answered the request for [base64_image] with a response whose
    first choice has the text [content]. *)
Definition model_replies (client : str -> api_outcome)
    (base64_image : pyvalue) (content : str) : Prop :=
  exists url more,
    image_url base64_image = Ok url /\
    client url = ApiReturns (Some content :: more).

(** The text that is parsed, and searched when parsing fails: the reply
    trimmed, without its fence lines when it opens with a fence. *)
Definition result_text_of (content : str) : str := strip_fence (strip content).

(** The JSON value of a reply, if it has one. *)
Definition reply_json (content : str) : option pyvalue :=
  Json.value (result_text_of content).

(** Line 88 on a reply: how [json.loads] ends on the text that is parsed. *)
Definition reply_loads (rt : runtime) (content : str) : outcome pyvalue :=
  Json.loads rt (result_text_of content).

(** The JSON object the model answered the request with, if it did. *)
Definition reply_object (client : str -> api_outcome)
    (base64_image : pyvalue) : option dict :=
  match image_url base64_image with
  | Ok url =>
      match client url with
      | ApiReturns (Some content :: _) =>
          match reply_json content with
          | Some (PyDict obj) => Some obj
          | _ => None
          end
      | _ => None
      end
  | Raise _ => None
  end.

(** [d.setdefault(k, v)], as a new dict. *)
Definition setdefault (k : str) (v : pyvalue) (d : dict) : dict :=
  if Dict.mem k d then d else Dict.set k v d.

(** A reply object with the three defaults filled in. *)
Definition filled (d : dict) : dict :=
  setdefault (py "details") (PyStr (py "Analysis completed"))
    (setdefault (py "confidence") (PyStr (py "low"))
       (setdefault (py "status") (PyStr (py "awake")) d)).

(** The value of a field of the reply after backfilling. *)
Definition field_or (k default : string) (d : dict) : pyvalue :=
  match Dict.get (py k) d with
  | Some v => v
  | None => PyStr (py default)
  end.

(** A status lowercased and trimmed, and forced to awake when that is
    neither sleeping nor awake. *)
Definition normal_status (rt : runtime) (s : str) : str :=
  let t := strip (lower rt s) in
  if Str.eqb (py "sleeping") t || Str.eqb (py "awake") t then t else py "awake".

(** A value is one of the strings of a list. *)
Definition one_of (choices : list string) (v : pyvalue) : bool :=
  existsb (fun c => is_str (py c) v) choices.

(** The result contract as the specification words it: a dict with the
    three fields, a status and a confidence from the enumerated sets, and
    details that are a string. *)
Definition enumerated (r : pyvalue) : bool :=
  match r with
  | PyDict d =>
      match Dict.get (py "status") d,
            Dict.get (py "confidence") d,
            Dict.get (py "details") d with
      | Some status, Some confidence, Some (PyStr _) =>
          one_of ["sleeping"; "awake"; "error"]%string status
          && one_of ["high"; "medium"; "low"; "none"]%string confidence
      | _, _, _ => false
      end
  | _ => false
  end.

(** The reply object of the model holds [v] under the key [k]. *)
Definition supplied (client : str -> api_outcome) (base64_image : pyvalue)
    (k : string) (v : pyvalue) : Prop :=
  exists obj, reply_object client base64_image = Some obj /\
              Dict.get (py k) obj = Some v.

(** The contract the code keeps: a dict with the three fields, in which the
    status is one of the three, the confidence is one of the four unless
    the reply object supplied it, and the details are a string unless the
    reply object supplied them. *)
Definition well_formed (client : str -> api_outcome) (base64_image : pyvalue)
    (r : pyvalue) : Prop :=
  exists d status confidence details,
    r = PyDict d /\
    Dict.get (py "status") d = Some status /\
    Dict.get (py "confidence") d = Some confidence /\
    Dict.get (py "details") d = Some details /\
    one_of ["sleeping"; "awake"; "error"]%string status = true /\
    (one_of ["high"; "medium"; "low"; "none"]%string confidence = true \/
     supplied client base64_image "confidence" confidence) /\
    ((exists s, details = PyStr s) \/
     supplied client base64_image "details" details).

(** [d'] is the reply object [d] normalised: each of the three fields that
    [d] lacks holds its default, the status is the status of [d] (or the
    default) lowercased, trimmed and forced to awake when that is neither
    sleeping nor awake, and confidence, details and every other key are
    those of [d]. *)
Definition normalized_reply (rt : runtime) (d d' : dict) : Prop :=
  (exists s, field_or "status" "awake" d = PyStr s /\
             Dict.get (py "status") d' = Some (PyStr (normal_status rt s))) /\
  Dict.get (py "confidence") d' = Some (field_or "confidence" "low" d) /\
  Dict.get (py "details") d' = Some (field_or "details" "Analysis completed" d) /\
  (forall k, Str.eqb k (py "status") = false ->
             Str.eqb k (py "confidence") = false ->
             Str.eqb k (py "details") = false ->
             Dict.get k d' = Dict.get k d).

(** A JSON value on which the normalisation faults: anything but an object,
    and an object whose status is there and is not a string. *)
Definition ill_typed (v : pyvalue) : bool :=
  match v with
  | PyDict d =>
      match Dict.get (py "status") d with
      | Some (PyStr _) | None => false
      | Some _ => true
      end
  | _ => true
  end.

(** The fault of the normalisation on a JSON value of the wrong shape: the
    [in] test on a scalar, the assignment to a string that lacks one of the
    three words, the subscript of a list or of a string that has the three,
    [lower] on a status that is not a string. *)
Definition shape_fault (v : pyvalue) : option fault :=
  match v with
  | PyDict d =>
      match Dict.get (py "status") d with
      | Some (PyStr _) | None => None
      | Some status => Some (NoAttribute (type_of status) (py "lower"))
      end
  | PyList _ => Some (BadIndex TList)
  | PyStr s =>
      if contains (py "status") s && contains (py "confidence") s
         && contains (py "details") s
      then Some (BadIndex TStr)
      else Some (NoItemAssignment TStr)
  | _ => Some (NotAContainer (type_of v))
  end.

(** The body of the [try] ends in one of five ways. *)
Inductive body_path (rt : runtime) (client : str -> api_outcome)
    (base64_image : pyvalue) : list event * option str * outcome pyvalue -> Prop :=
| early_fault (events : list event) (f : fault) :
    body_path rt client base64_image (events, None, throw f)
| client_raised (url : str) (e : raised) :
    image_url base64_image = Ok url ->
    client url = ApiRaises e ->
    body_path rt client base64_image ([ModelCall url], None, Raise e)
| not_json (url : str) (content : str) :
    model_replies client base64_image content ->
    reply_loads rt content = Raise JSONDecodeError ->
    body_path rt client base64_image
      ([ModelCall url], Some (result_text_of content), Raise JSONDecodeError)
| over_limit (url : str) (content : str) (f : fault) :
    model_replies client base64_image content ->
    reply_loads rt content = throw f ->
    body_path rt client base64_image
      ([ModelCall url], Some (result_text_of content), throw f)
| json (url : str) (content : str) (v : pyvalue) :
    model_replies client base64_image content ->
    reply_loads rt content = Ok v ->
    body_path rt client base64_image
      ([ModelCall url], Some (result_text_of content), normalize rt v).

(** The failures that the second handler answers, told from the argument,
    the client and the runtime: the argument is not a string; the call of
    the client raises an exception that is not a JSONDecodeError; the
    response has no choice, or its first choice has no content;
    [json.loads] reaches a limit of the interpreter on the reply; the reply
    is JSON of the wrong shape.  Each comes with its exception. *)
Inductive failure (rt : runtime) (client : str -> api_outcome)
    (base64_image : pyvalue) : exception -> Prop :=
| argument_not_a_string :
    (forall s, base64_image <> PyStr s) ->
    failure rt client base64_image
      (Fault (NoAttribute (type_of base64_image) (py "startswith")))
| call_failed (url : str) (e : exception) :
    image_url base64_image = Ok url ->
    client url = ApiRaises (Other e) ->
    failure rt client base64_image e
| no_choice (url : str) :
    image_url base64_image = Ok url ->
    client url = ApiReturns [] ->
    failure rt client base64_image (Fault IndexOutOfRange)
| no_content (url : str) (more : list (option str)) :
    image_url base64_image = Ok url ->
    client url = ApiReturns (None :: more) ->
    failure rt client base64_image (Fault (NoAttribute NoneType (py "strip")))
| limit_reached (content : str) (f : fault) :
    model_replies client base64_image content ->
    reply_loads rt content = throw f ->
    failure rt client base64_image (Fault f)
| wrong_shape (content : str) (v : pyvalue) (f : fault) :
    model_replies client base64_image content ->
    reply_loads rt content = Ok v ->
    shape_fault v = Some f ->
    failure rt client base64_image (Fault f).

(** *** Worked examples *)

(** A number in decimal, as [%d] prints it. *)
Fixpoint digits_of (u : Decimal.uint) : str :=
  match u with
  | Decimal.Nil => []
  | Decimal.D0 u => 48 :: digits_of u
  | Decimal.D1 u => 49 :: digits_of u
  | Decimal.D2 u => 50 :: digits_of u
  | Decimal.D3 u => 51 :: digits_of u
  | Decimal.D4 u => 52 :: digits_of u
  | Decimal.D5 u => 53 :: digits_of u
  | Decimal.D6 u => 54 :: digits_of u
  | Decimal.D7 u => 55 :: digits_of u
  | Decimal.D8 u => 56 :: digits_of u
  | Decimal.D9 u => 57 :: digits_of u
  end.

Definition decimal (n : N) : str := digits_of (N.to_uint n).

(** The names of the types and the wording of the faults in CPython 3.11
    (a key is shown as [repr] shows a key without quotes or escapes). *)
Definition type_name (t : pytype) : str :=
  match t with
  | NoneType => py "NoneType"
  | TBool => py "bool"
  | TInt => py "int"
  | TFloat => py "float"
  | TStr => py "str"
  | TList => py "list"
  | TDict => py "dict"
  end.

Definition cpython311_text (f : fault) : str :=
  match f with
  | NoAttribute t attr =>
      py "'" ++ type_name t ++ py "' object has no attribute '" ++ attr ++ py "'"
  | NotAContainer t =>
      py "argument of type '" ++ type_name t ++ py "' is not iterable"
  | NotSubscriptable t =>
      py "'" ++ type_name t ++ py "' object is not subscriptable"
  | BadIndex TStr => py "string indices must be integers, not 'str'"
  | BadIndex t =>
      type_name t ++ py " indices must be integers or slices, not str"
  | NoItemAssignment t =>
      py "'" ++ type_name t ++ py "' object does not support item assignment"
  | NoLen t => py "object of type '" ++ type_name t ++ py "' has no len()"
  | MissingKey k => py "'" ++ k ++ py "'"
  | IndexOutOfRange => py "list index out of range"
  | Unbound variable =>
      py "cannot access local variable '" ++ variable
      ++ py "' where it is not associated with a value"
  | IntegerTooLong limit digits =>
      py "Exceeds the limit (" ++ decimal limit
      ++ py " digits) for integer string conversion: value has "
      ++ decimal digits
      ++ py " digits; use sys.set_int_max_str_digits() to increase the limit"
  | RecursionDepth message => message
  end.

(** The bracket that opens one container more than [room] are open at
    once, when parsing gets that far before it fails. *)
Fixpoint overflow (room : nat) (limit : N) (st : Json.pstate)
    (ts : list Json.token) : option Json.token :=
  match ts with
  | [] => None
  | t :: ts' =>
      match Json.step limit st t with
      | Ok st' =>
          if (room <? length (snd st'))%nat then Some t
          else overflow room limit st' ts'
      | Raise _ => None
      end
  end.

(** The RecursionError of CPython 3.11 on a stack that has room for [room]
    containers inside one another: it is raised by the bracket that opens
    one more, and names the kind of container.  (Within three levels of
    that room CPython 3.11 also ends some syntax errors with a
    RecursionError, for want of frames to build the JSONDecodeError; that
    is left out of this instance, and no example comes near it.) *)
Definition cpython311_recursion (room : nat) (limit : N) (s : str)
  : option str :=
  match overflow room limit (Json.Value, []) (Json.scan Json.Between s) with
  | Some Json.TLBrace =>
      Some (py "maximum recursion depth exceeded while decoding a JSON object from a unicode string")
  | Some _ =>
      Some (py "maximum recursion depth exceeded while decoding a JSON array from a unicode string")
  | None => None
  end.

(** The runtime of the worked examples: the wording of CPython 3.11, its
    limit of 4300 digits, and a stack on which 900 containers nest, as with
    the default recursion limit of 1000 in a call some hundred frames deep;
    no table for text outside ASCII, which the examples do not have
    ([lower] does not consult the table on ASCII text). *)
Definition ascii_runtime : runtime :=
  {| unicode_lower := fun s => s;
     fault_text := cpython311_text;
     int_max_str_digits := 4300;
     recursion_error := cpython311_recursion 900 4300 |}.

(** A model that answers every request with the one choice [content]. *)
Definition replies (content : str) : str -> api_outcome :=
  fun _ => ApiReturns [Some content].

(** Such a model answers: the URL is computed, the rest is by definition. *)
Ltac model_answers :=
  unfold model_replies; eexists; exists []; split; reflexivity.


(** *** The fixed results and the shapes of a request *)

(** The guess of the first handler when the keyword is absent. *)
Definition awake_guess : pyvalue :=
  detection_result
    (py "awake") (py "low") (py "Could not parse model response clearly").

(** The result of the second handler for a fault of the interpreter. *)
Definition fault_result (rt : runtime) (f : fault) : pyvalue :=
  detection_result
    (py "error") (py "none") (py "Error during analysis: " ++ fault_text rt f).

(** The values on which [in] raises: [None], booleans and numbers. *)
Definition not_a_container (v : pyvalue) : bool :=
  match v with
  | PyNone | PyBool _ | PyInt _ | PyFloat _ => true
  | PyStr _ | PyList _ | PyDict _ => false
  end.

(** A text of nothing but whitespace, the empty text included. *)
Definition blank (s : str) : bool := forallb isspace s.

(** The events of one request: nothing, the call of [detect_sleep] alone,
    or that call and then one call of the model with a data URI. *)
Definition request_events (events : list event) : Prop :=
  events = [] \/
  (exists v, events = [DetectorCall v]) \/
  (exists v url, events = [DetectorCall v; ModelCall url] /\
                 startswith (py "data:") url = true).

(* ================================================================= *)
(** ** Strings and dictionaries *)

Lemma eqb_eq (a b : str) : Str.eqb a b = true <-> a = b.
Proof.
  revert b; induction a as [|x a IH]; intros [|y b]; simpl;
    try (split; [discriminate | discriminate]).
  - split; reflexivity.
  - rewrite andb_true_iff, N.eqb_eq, IH. split.
    + intros [-> ->]. reflexivity.
    + intros E. injection E as -> ->. split; reflexivity.
Qed.

Lemma eqb_refl (a : str) : Str.eqb a a = true.
Proof. apply eqb_eq. reflexivity. Qed.

Lemma get_set_same (k : str) (v : pyvalue) (d : dict) :
  Dict.get k (Dict.set k v d) = Some v.
Proof.
  induction d as [|[k0 v0] d IH]; simpl.
  - rewrite eqb_refl. reflexivity.
  - destruct (Str.eqb k k0) eqn:E; simpl; rewrite E; auto.
Qed.

Lemma get_set_other (k k' : str) (v : pyvalue) (d : dict) :
  Str.eqb k' k = false ->
  Dict.get k' (Dict.set k v d) = Dict.get k' d.
Proof.
  intros Hk. induction d as [|[k0 v0] d IH]; simpl.
  - rewrite Hk. reflexivity.
  - destruct (Str.eqb k k0) eqn:E; simpl.
    + apply eqb_eq in E. subst k0. rewrite Hk. reflexivity.
    + rewrite IH. reflexivity.
Qed.

Lemma set_set (k : str) (v1 v2 : pyvalue) (d : dict) :
  Dict.set k v2 (Dict.set k v1 d) = Dict.set k v2 d.
Proof.
  induction d as [|[k0 v0] d IH]; simpl.
  - rewrite eqb_refl. reflexivity.
  - destruct (Str.eqb k k0) eqn:E; simpl; rewrite E.
    + reflexivity.
    + rewrite IH. reflexivity.
Qed.

Lemma get_setdefault_same (k : str) (v : pyvalue) (d : dict) :
  Dict.get k (setdefault k v d)
  = Some (match Dict.get k d with Some x => x | None => v end).
Proof.
  unfold setdefault, Dict.mem.
  destruct (Dict.get k d) as [x|] eqn:E.
  - exact E.
  - apply get_set_same.
Qed.

Lemma get_setdefault_other (k k' : str) (v : pyvalue) (d : dict) :
  Str.eqb k' k = false ->
  Dict.get k' (setdefault k v d) = Dict.get k' d.
Proof.
  intros Hk. unfold setdefault.
  destruct (Dict.mem k d); [reflexivity | apply get_set_other, Hk].
Qed.

(** The three lookups in a backfilled object. *)
Lemma get_filled_status (d : dict) :
  Dict.get (py "status") (filled d) = Some (field_or "status" "awake" d).
Proof.
  unfold filled, field_or.
  rewrite !get_setdefault_other by reflexivity.
  apply get_setdefault_same.
Qed.

Lemma get_filled_confidence (d : dict) :
  Dict.get (py "confidence") (filled d) = Some (field_or "confidence" "low" d).
Proof.
  unfold filled, field_or.
  rewrite get_setdefault_other by reflexivity.
  rewrite get_setdefault_same.
  rewrite get_setdefault_other by reflexivity.
  reflexivity.
Qed.

Lemma get_filled_details (d : dict) :
  Dict.get (py "details") (filled d)
  = Some (field_or "details" "Analysis completed" d).
Proof.
  unfold filled, field_or.
  rewrite get_setdefault_same.
  rewrite !get_setdefault_other by reflexivity.
  reflexivity.
Qed.

Lemma get_filled_other (k : str) (d : dict) :
  Str.eqb k (py "status") = false ->
  Str.eqb k (py "confidence") = false ->
  Str.eqb k (py "details") = false ->
  Dict.get k (filled d) = Dict.get k d.
Proof.
  intros Hs Hc Hd. unfold filled.
  rewrite !get_setdefault_other by assumption.
  reflexivity.
Qed.

(** Lookups in a normalised object are settled by rewriting. *)
Create Rewrite HintDb dict.
#[global] Hint Rewrite
  get_set_same get_filled_status get_filled_confidence get_filled_details
  : dict.
#[global] Hint Rewrite get_set_other using reflexivity : dict.

(** On ASCII text [lower] is the map of the letters, whatever the runtime. *)
Lemma lower_ascii (rt : runtime) (s : str) :
  is_ascii s = true -> lower rt s = map lower_ascii_char s.
Proof. unfold lower. intros ->. reflexivity. Qed.

(** What [split] and [join] do around a separator. *)
Lemma split_nonempty (sep : N) (s : str) :
  exists piece pieces, split sep s = piece :: pieces.
Proof.
  induction s as [| c s (piece & pieces & IH)]; simpl.
  - eauto.
  - destruct (c =? sep); [eauto |]. rewrite IH. eauto.
Qed.

Lemma split_no_sep (sep : N) (s : str) :
  ~ In sep s -> split sep s = [s].
Proof.
  induction s as [| c s IH]; simpl; intros Hin.
  - reflexivity.
  - destruct (c =? sep) eqn:E.
    + apply N.eqb_eq in E. exfalso. apply Hin. left. exact E.
    + rewrite IH by (intros H; apply Hin; right; exact H). reflexivity.
Qed.

Lemma split_two (sep : N) (s : str) :
  In sep s -> exists a b rest, split sep s = a :: b :: rest.
Proof.
  induction s as [| c s IH]; simpl; intros Hin.
  - contradiction.
  - destruct (c =? sep) eqn:E.
    + destruct (split_nonempty sep s) as (b & rest & ->). eauto.
    + destruct Hin as [-> | Hin]; [rewrite N.eqb_refl in E; discriminate |].
      destruct (IH Hin) as (a & b & rest & ->). eauto.
Qed.

(** The last piece of a split is the last piece of what follows any
    separator. *)
Lemma last_split_app (sep : N) (p s : str) :
  last (split sep (p ++ sep :: s)) [] = last (split sep s) [].
Proof.
  induction p as [| c p IH].
  - cbn [app split]. rewrite N.eqb_refl.
    destruct (split_nonempty sep s) as (a & rest & ->). reflexivity.
  - cbn [app split]. rewrite <- IH.
    destruct (split_two sep (p ++ sep :: s)) as (a & b & rest & E).
    { apply in_or_app. right. left. reflexivity. }
    rewrite E. destruct (c =? sep); reflexivity.
Qed.

Lemma length_last_split (sep : N) (s : str) :
  (length (last (split sep s) []) <= length s)%nat.
Proof.
  induction s as [| c s IH]; cbn [split].
  - simpl. lia.
  - destruct (split_nonempty sep s) as (a & rest & E). rewrite E in *.
    destruct (c =? sep).
    + change (length (c :: s)) with (S (length s)).
      change (last ([] :: a :: rest) []) with (last (a :: rest) []). lia.
    + destruct rest as [| b rest].
      * simpl in *. lia.
      * change (last ((c :: a) :: b :: rest) []) with (last (a :: b :: rest) []).
        simpl length in *. lia.
Qed.

Lemma split_head (sep : N) (a b : str) :
  ~ In sep a -> split sep (a ++ sep :: b) = a :: split sep b.
Proof.
  induction a as [| x a IH]; intros Hin.
  - cbn [app split]. rewrite N.eqb_refl. reflexivity.
  - cbn [app split].
    destruct (x =? sep) eqn:E.
    + apply N.eqb_eq in E. exfalso. apply Hin. left. exact E.
    + rewrite IH by (intros H; apply Hin; right; exact H). reflexivity.
Qed.


Lemma join_split (sep : N) (s : str) : join [sep] (split sep s) = s.
Proof.
  induction s as [| x s IH].
  - reflexivity.
  - cbn [split].
    destruct (split_nonempty sep s) as (p & ps & E). rewrite E in *.
    destruct (x =? sep) eqn:Ex.
    + apply N.eqb_eq in Ex. subst x.
      change (join [sep] ([] :: p :: ps)) with (sep :: join [sep] (p :: ps)).
      rewrite IH. reflexivity.
    + destruct ps as [| q ps].
      * cbn [join] in *. rewrite IH. reflexivity.
      * change (join [sep] ((x :: p) :: q :: ps))
          with (x :: join [sep] (p :: q :: ps)).
        rewrite IH. reflexivity.
Qed.

Lemma filter_all {A : Type} (f : A -> bool) (l : list A) :
  Forall (fun x => f x = true) l -> filter f l = l.
Proof.
  induction 1 as [| x l Hx _ IH]; cbn [filter].
  - reflexivity.
  - rewrite Hx, IH. reflexivity.
Qed.

(** A text between two characters that are not spaces has nothing to trim. *)
Lemma strip_fixed (c c' : N) (mid : str) :
  isspace c = false -> isspace c' = false ->
  strip (c :: mid ++ [c']) = c :: mid ++ [c'].
Proof.
  intros Hc Hc'. unfold strip, rstrip.
  cbn [lstrip]. rewrite Hc.
  change (c :: mid ++ [c']) with ((c :: mid) ++ [c']).
  rewrite rev_app_distr. cbn [rev app lstrip]. rewrite Hc'.
  change (c' :: rev mid ++ [c]) with ([c'] ++ rev (c :: mid)).
  rewrite rev_app_distr, rev_involutive. reflexivity.
Qed.


(* ================================================================= *)
(** ** [json.loads] on examples *)

Example loads_object :
  Json.loads ascii_runtime (dq " { 'a' : [1, -2.5e3, true, null], 'b' : {} } ")
  = Ok (PyDict [(py "a", PyList [PyInt 1; PyFloat (FDec true 25 2);
                                 PyBool true; PyNone]);
                (py "b", PyDict [])]).
Proof. reflexivity. Qed.

(** A key that comes twice keeps its first place and its last value. *)
Example loads_repeated_key :
  Json.loads ascii_runtime (dq "{'a':1,'b':2,'a':3}")
  = Ok (PyDict [(py "a", PyInt 3); (py "b", PyInt 2)]).
Proof. reflexivity. Qed.

(** Escapes are decoded, and the escapes of a surrogate pair are joined. *)
Example loads_escapes :
  Json.loads ascii_runtime (dq "'a\nb\u00e9\ud83d\ude00'")
  = Ok (PyStr [97; 10; 98; 233; 128512]).
Proof. reflexivity. Qed.

(** CPython's extensions of JSON are values. *)
Example loads_constants :
  Json.loads ascii_runtime (py "[NaN, Infinity, -Infinity]")
  = Ok (PyList [PyFloat FNaN; PyFloat (FInf false); PyFloat (FInf true)]).
Proof. reflexivity. Qed.

(** What is not JSON: no text, prose, a trailing comma, a numeral with a
    leading zero, a tab inside a string, a key that is not a string, two
    values, a quote of the wrong kind. *)
Example loads_rejects :
  map (Json.loads ascii_runtime)
    [ []; py "hello"; py "[1,]"; py "01"; [34; 9; 34]; py "{1:2}"; py "1 2";
      py "{'a':1}" ]
  = repeat (Raise JSONDecodeError) 8.
Proof. reflexivity. Qed.

(** An integer of 4300 digits is read; one of 4301 digits is a ValueError
    where a value is awaited, also when what follows it is no JSON, and a
    syntax error where none is awaited or when the error comes first. *)
Example loads_long_integers :
  let long := repeat (chr "1") 4301 in
  Json.loads ascii_runtime (tl long)
  = Ok (PyInt (Z.of_N (Json.digits_value (tl long)))) /\
  map (Json.loads ascii_runtime)
    [ long; py "[1, " ++ long; long ++ py "e"; py "[1 " ++ long ++ py "]";
      py "[x, " ++ long ++ py "]" ]
  = [ throw (IntegerTooLong 4300 4301); throw (IntegerTooLong 4300 4301);
      throw (IntegerTooLong 4300 4301); Raise JSONDecodeError;
      Raise JSONDecodeError ].
Proof. split; vm_compute; reflexivity. Qed.

(** *** The limits only take results away *)

Lemma too_long_unlimited (digits : N) : Json.too_long 0 digits = false.
Proof.
  unfold Json.too_long. rewrite N.ltb_irrefl, andb_false_r. reflexivity.
Qed.

(** A step under a limit raises the ValueError of the limit, or is the
    step without a limit. *)
Lemma step_agrees (limit : N) (st : Json.pstate) (t : Json.token) :
  (exists f, Json.step limit st t = throw f) \/
  Json.step limit st t = Json.step 0 st t.
Proof.
  assert (Hvalue : forall stack,
            (exists f, Json.start_value limit t stack = throw f) \/
            Json.start_value limit t stack = Json.start_value 0 t stack).
  { intros stack. destruct t; try (right; reflexivity).
    unfold Json.start_value. rewrite too_long_unlimited.
    destruct (Json.too_long limit digits); [left; eauto | right; reflexivity]. }
  destruct st as [e stack].
  destruct e; cbn [Json.step]; try (right; reflexivity); try apply Hvalue.
  destruct t; try (right; reflexivity); apply Hvalue.
Qed.

Lemma run_agrees (limit : N) (ts : list Json.token) (st : Json.pstate) :
  (exists f, Json.run limit st ts = throw f) \/
  Json.run limit st ts = Json.run 0 st ts.
Proof.
  revert st. induction ts as [| t ts IH]; intros st; cbn [Json.run].
  - right. reflexivity.
  - destruct (step_agrees limit st t) as [[f Hf] | Hsame].
    + left. exists f. rewrite Hf. reflexivity.
    + rewrite Hsame. destruct (Json.step 0 st t) as [st' | e]; cbn [bind].
      * apply IH.
      * right. reflexivity.
Qed.

(** [json.loads] raises a fault of the interpreter, or ends as parsing
    without limits does. *)
Lemma loads_agrees (rt : runtime) (s : str) :
  (exists f, Json.loads rt s = throw f) \/
  Json.loads rt s = Json.parse 0 s.
Proof.
  unfold Json.loads.
  destruct (if Json.nests s then recursion_error rt s else None) as [message |].
  - left. eauto.
  - apply run_agrees.
Qed.

Lemma loads_ok (rt : runtime) (s : str) (v : pyvalue) :
  Json.loads rt s = Ok v -> Json.value s = Some v.
Proof.
  intros Hv. unfold Json.value.
  destruct (loads_agrees rt s) as [[f Hf] | <-].
  - rewrite Hf in Hv. discriminate.
  - rewrite Hv. reflexivity.
Qed.

Lemma loads_decode_error (rt : runtime) (s : str) :
  Json.loads rt s = Raise JSONDecodeError -> Json.value s = None.
Proof.
  intros He. unfold Json.value.
  destruct (loads_agrees rt s) as [[f Hf] | <-].
  - rewrite Hf in He. discriminate.
  - rewrite He. reflexivity.
Qed.

Lemma loads_raise (rt : runtime) (s : str) (e : exception) :
  Json.loads rt s = Raise (Other e) -> exists f, e = Fault f.
Proof.
  intros He.
  destruct (loads_agrees rt s) as [[f Hf] | Hsame].
  - rewrite Hf in He. injection He as <-. eauto.
  - exfalso. rewrite Hsame in He. clear Hsame.
    unfold Json.parse in He.
    assert (Hstep : forall st t e',
              Json.step 0 st t = Raise (Other e') -> False).
    { intros [x stack] t e'.
      assert (Hcomplete : forall v stk,
                Json.complete v stk = Raise (Other e') -> False)
        by (intros v [| [done | done [k |]] stk]; discriminate).
      assert (Hvalue : Json.start_value 0 t stack = Raise (Other e') -> False).
      { destruct t; cbn [Json.start_value]; try discriminate.
        - apply Hcomplete.
        - rewrite too_long_unlimited. apply Hcomplete. }
      assert (Hlist : Json.close_list stack = Raise (Other e') -> False)
        by (destruct stack as [| [done | done k] stk]; cbn [Json.close_list];
            try discriminate; apply Hcomplete).
      assert (Hdict : Json.close_dict stack = Raise (Other e') -> False)
        by (destruct stack as [| [done | done [k |]] stk];
            cbn [Json.close_dict]; try discriminate; apply Hcomplete).
      assert (Hkey : Json.take_key t stack = Raise (Other e') -> False).
      { unfold Json.take_key.
        destruct t as [| | | | | | [| b | z | f | k | items | d] | digits z |];
          try discriminate.
        destruct stack as [| [done | done [k' |]] stk]; discriminate. }
      destruct x; cbn [Json.step]; try assumption; try discriminate.
      - destruct t; try assumption.
      - destruct t; try assumption.
      - destruct t; discriminate.
      - destruct t; try discriminate; try assumption;
          destruct stack as [| [done | done k] stk]; discriminate. }
    revert He. generalize (Json.Value, @nil Json.frame).
    induction (Json.scan Json.Between s) as [| t ts IH]; intros st;
      cbn [Json.run].
    + destruct st as [[] stack]; discriminate.
    + destruct (Json.step 0 st t) as [st' | [| e']] eqn:Hst; cbn [bind].
      * apply IH.
      * discriminate.
      * intros _. exact (Hstep st t e' Hst).
Qed.

(* ================================================================= *)
(** ** The normalisation, lines 91-103 *)

Lemma backfill_dict (k default : string) (d : dict) :
  backfill k default (PyDict d)
  = Ok (PyDict (setdefault (py k) (PyStr (py default)) d)).
Proof.
  unfold backfill, setdefault. simpl.
  destruct (Dict.mem (py k) d); reflexivity.
Qed.

Lemma normal_status_choice (rt : runtime) (s : str) :
  normal_status rt s = py "sleeping" \/ normal_status rt s = py "awake".
Proof.
  unfold normal_status.
  destruct (Str.eqb (py "sleeping") (strip (lower rt s))) eqn:E1; cbn [orb].
  - apply eqb_eq in E1. left. symmetry. exact E1.
  - destruct (Str.eqb (py "awake") (strip (lower rt s))) eqn:E2.
    + apply eqb_eq in E2. right. symmetry. exact E2.
    + right. reflexivity.
Qed.

(** An object whose status, after backfilling, is a string: the result is
    the backfilled object with the normal status. *)
Lemma normalize_object (rt : runtime) (d : dict) (s : str) :
  field_or "status" "awake" d = PyStr s ->
  normalize rt (PyDict d)
  = Ok (PyDict (Dict.set (py "status") (PyStr (normal_status rt s)) (filled d))).
Proof.
  intros Hs. unfold normalize.
  rewrite backfill_dict. cbn [bind].
  rewrite backfill_dict. cbn [bind].
  rewrite backfill_dict. cbn [bind].
  fold (filled d).
  unfold py_getitem at 1. rewrite get_filled_status, Hs. cbn [bind as_str].
  cbn [py_setitem bind py_getitem]. rewrite get_set_same. cbn [bind is_str].
  unfold normal_status.
  destruct (Str.eqb (py "sleeping") (strip (lower rt s))
            || Str.eqb (py "awake") (strip (lower rt s))); cbn [negb].
  - reflexivity.
  - rewrite set_set. reflexivity.
Qed.

(** An object whose status is there and is not a string: [.lower] faults. *)
Lemma normalize_bad_status (rt : runtime) (d : dict) (v : pyvalue) :
  Dict.get (py "status") d = Some v ->
  (forall s, v <> PyStr s) ->
  normalize rt (PyDict d) = throw (NoAttribute (type_of v) (py "lower")).
Proof.
  intros Hv Hns. unfold normalize.
  rewrite backfill_dict. cbn [bind].
  rewrite backfill_dict. cbn [bind].
  rewrite backfill_dict. cbn [bind].
  fold (filled d).
  unfold py_getitem at 1. rewrite get_filled_status.
  unfold field_or. rewrite Hv. cbn [bind].
  destruct v; try reflexivity. exfalso. eapply Hns. reflexivity.
Qed.

(** Anything that is not an object: one of the steps faults. *)
Lemma normalize_not_dict (rt : runtime) (v : pyvalue) :
  (forall d, v <> PyDict d) ->
  exists f, normalize rt v = throw f.
Proof.
  intros Hnd. unfold normalize, backfill.
  destruct v as [| b | z | f | s | items | d]; cbn [py_in bind];
    try (eexists; reflexivity).
  - destruct (contains (py "status") s); cbn [negb py_setitem bind py_in];
      [| eexists; reflexivity].
    destruct (contains (py "confidence") s); cbn [negb py_setitem bind py_in];
      [| eexists; reflexivity].
    destruct (contains (py "details") s); cbn [negb py_setitem bind py_in];
      eexists; reflexivity.
  - destruct (existsb (is_str (py "status")) items);
      cbn [negb py_setitem bind py_in]; [| eexists; reflexivity].
    destruct (existsb (is_str (py "confidence")) items);
      cbn [negb py_setitem bind py_in]; [| eexists; reflexivity].
    destruct (existsb (is_str (py "details")) items);
      cbn [negb py_setitem bind py_in]; eexists; reflexivity.
  - exfalso. eapply Hnd. reflexivity.
Qed.

(** The two ways the normalisation ends: with the normalised object, when
    the value is an object whose status is a string or is missing, and with
    a fault on every other value. *)
Lemma ill_typed_false (v : pyvalue) :
  ill_typed v = false ->
  exists d s, v = PyDict d /\ field_or "status" "awake" d = PyStr s.
Proof.
  destruct v as [| b | z | f | s | items | d]; try discriminate.
  unfold ill_typed.
  destruct (Dict.get (py "status") d) as [[| b | z | f | s | items | d']|] eqn:E;
    try discriminate; intros _; exists d; eexists;
    (split; [reflexivity | unfold field_or; rewrite E; reflexivity]).
Qed.

Lemma ill_typed_true (rt : runtime) (v : pyvalue) :
  ill_typed v = true -> exists f, normalize rt v = throw f.
Proof.
  intros Hv.
  destruct v as [| b | z | f | s | items | d];
    try (apply normalize_not_dict; discriminate).
  unfold ill_typed in Hv.
  destruct (Dict.get (py "status") d) as [x|] eqn:Hx; [| discriminate].
  eexists. apply normalize_bad_status with (v := x); [exact Hx |].
  intros s ->. discriminate.
Qed.

(* ================================================================= *)
(** ** [detect_sleep] on a reply *)

Section Replies.

Variable rt : runtime.
Variable client : str -> api_outcome.
Variable base64_image : pyvalue.
Variable content : str.
Hypothesis answered : model_replies client base64_image content.

Lemma try_body_reply :
  exists url,
    try_body rt client base64_image
    = ([ModelCall url], Some (result_text_of content),
       result <- reply_loads rt content ;; normalize rt result).
Proof.
  destruct answered as (url & more & Hurl & Hcall).
  exists url. unfold try_body. rewrite Hurl, Hcall. reflexivity.
Qed.

(** A reply that is not JSON: the first handler answers from its text. *)
Lemma detect_sleep_not_json :
  reply_loads rt content = Raise JSONDecodeError ->
  snd (detect_sleep rt client base64_image)
  = on_decode_error rt (Some (result_text_of content)).
Proof.
  intros Hjson. destruct try_body_reply as [url Hbody].
  unfold detect_sleep. rewrite Hbody, Hjson. reflexivity.
Qed.

(** A reply on which [json.loads] reaches a limit of the interpreter: the
    second handler answers. *)
Lemma detect_sleep_over_limit (f : fault) :
  reply_loads rt content = throw f ->
  snd (detect_sleep rt client base64_image) = Ok (on_exception rt (Fault f)).
Proof.
  intros Hjson. destruct try_body_reply as [url Hbody].
  unfold detect_sleep. rewrite Hbody, Hjson. reflexivity.
Qed.

(** A reply that is an object with a string for status, or with none. *)
Lemma detect_sleep_object (d : dict) (s : str) :
  reply_loads rt content = Ok (PyDict d) ->
  field_or "status" "awake" d = PyStr s ->
  snd (detect_sleep rt client base64_image)
  = Ok (PyDict (Dict.set (py "status") (PyStr (normal_status rt s)) (filled d))).
Proof.
  intros Hjson Hs. destruct try_body_reply as [url Hbody].
  unfold detect_sleep. rewrite Hbody, Hjson. cbn [bind].
  rewrite (normalize_object rt d s Hs). reflexivity.
Qed.

(** A reply that is JSON of the wrong shape: the second handler answers,
    with the fault of the normalisation, or with that of a limit of the
    interpreter when [json.loads] reaches one. *)
Lemma detect_sleep_ill_typed (v : pyvalue) :
  reply_json content = Some v ->
  ill_typed v = true ->
  exists f, snd (detect_sleep rt client base64_image)
            = Ok (on_exception rt (Fault f)).
Proof.
  intros Hjson Hv. destruct try_body_reply as [url Hbody].
  unfold detect_sleep. rewrite Hbody.
  destruct (reply_loads rt content) as [v' | [| e]] eqn:Hloads; cbn [bind].
  - apply loads_ok in Hloads. fold (reply_json content) in Hloads.
    assert (v' = v) as -> by congruence.
    destruct (ill_typed_true rt v Hv) as [f Hf].
    exists f. rewrite Hf. reflexivity.
  - apply loads_decode_error in Hloads. fold (reply_json content) in Hloads.
    congruence.
  - destruct (loads_raise _ _ _ Hloads) as [f ->]. exists f. reflexivity.
Qed.

End Replies.

(* ================================================================= *)
(** ** The claims about replies that are JSON *)

(** C2, as the code has it.  For every reply that [json.loads] parses to a
    JSON object (the reply is JSON, and parsing it reaches no limit of the
    interpreter) and whose status, when present, is a string: the result is
    an object in which each of the three fields that the reply lacks holds
    its default (awake, low, "Analysis completed"), the status is the
    reply's status (or the default) lowercased and trimmed, and forced to
    awake when that is neither sleeping nor awake, the confidence and the
    details of the reply are unchanged, and so is every other key of the
    reply. *)
Theorem object_reply_is_normalized
    (rt : runtime) (client : str -> api_outcome) (base64_image : pyvalue)
    (content : str) (d : dict) :
  model_replies client base64_image content ->
  reply_loads rt content = Ok (PyDict d) ->
  (forall v, Dict.get (py "status") d = Some v -> exists s, v = PyStr s) ->
  exists d',
    snd (detect_sleep rt client base64_image) = Ok (PyDict d') /\
    normalized_reply rt d d'.
Proof.
  intros Hans Hjson Hstatus.
  assert (Hs : exists s, field_or "status" "awake" d = PyStr s).
  { unfold field_or. destruct (Dict.get (py "status") d) as [v|] eqn:E.
    - destruct (Hstatus v eq_refl) as [s ->]. eauto.
    - eauto. }
  destruct Hs as [s Hs].
  eexists. split.
  { apply (detect_sleep_object rt client base64_image content Hans d s Hjson Hs). }
  unfold normalized_reply. autorewrite with dict.
  split; [exists s; auto |]. repeat split.
  intros k Hk1 Hk2 Hk3.
  rewrite get_set_other by exact Hk1. apply get_filled_other; assumption.
Qed.

Lemma object_reply_is_normalized_witness :
  let content := dq "{'status':' Awake','details':'eyes open'}" in
  let d := [(py "status", PyStr (py " Awake"));
            (py "details", PyStr (py "eyes open"))] in
  exists d',
    snd (detect_sleep ascii_runtime (replies content) (PyStr (py "aGVsbG8=")))
    = Ok (PyDict d') /\
    normalized_reply ascii_runtime d d'.
Proof.
  intros content d.
  apply (object_reply_is_normalized
           ascii_runtime (replies content) (PyStr (py "aGVsbG8=")) content d).
  - model_answers.
  - reflexivity.
  - intros v Hv. vm_compute in Hv. injection Hv as <-. eexists. reflexivity.
Defined.

(** C2 as stated fails: this reply parses as a JSON object and holds a
    confidence, yet the result is the error result and not the reply
    normalised, because the status is a number and has no [lower]. *)
Lemma number_status_loses_the_reply :
  let content := dq "{'status': 5, 'confidence': 'high', 'details': 'dozing'}" in
  reply_json content
  = Some (PyDict [(py "status", PyInt 5);
                  (py "confidence", PyStr (py "high"));
                  (py "details", PyStr (py "dozing"))]) /\
  snd (detect_sleep ascii_runtime (replies content) (PyStr (py "aGVsbG8=")))
  = Ok (detection_result (py "error") (py "none")
          (py "Error during analysis: 'int' object has no attribute 'lower'")).
Proof. split; reflexivity. Qed.

(** C3, as the code has it.  For every reply that [json.loads] parses to a
    JSON object (the reply is JSON, and parsing it reaches no limit of the
    interpreter) whose status is missing, or is a string that, lowercased
    and trimmed, is neither sleeping nor awake (such as "unknown"): the
    status of the result is awake. *)
Theorem unrecognised_status_becomes_awake
    (rt : runtime) (client : str -> api_outcome) (base64_image : pyvalue)
    (content : str) (d : dict) :
  model_replies client base64_image content ->
  reply_loads rt content = Ok (PyDict d) ->
  (Dict.get (py "status") d = None \/
   exists s, Dict.get (py "status") d = Some (PyStr s) /\
             Str.eqb (py "sleeping") (strip (lower rt s)) = false /\
             Str.eqb (py "awake") (strip (lower rt s)) = false) ->
  exists d',
    snd (detect_sleep rt client base64_image) = Ok (PyDict d') /\
    Dict.get (py "status") d' = Some (PyStr (py "awake")).
Proof.
  intros Hans Hjson [Hnone | (s & Hs & Hsleeping & Hawake)].
  - eexists. split.
    + apply (detect_sleep_object rt client base64_image content Hans
               d (py "awake") Hjson).
      unfold field_or. rewrite Hnone. reflexivity.
    + rewrite get_set_same. reflexivity.
  - eexists. split.
    + apply (detect_sleep_object rt client base64_image content Hans
               d s Hjson).
      unfold field_or. rewrite Hs. reflexivity.
    + rewrite get_set_same. unfold normal_status.
      rewrite Hsleeping, Hawake. reflexivity.
Qed.

Lemma unrecognised_status_becomes_awake_witness :
  exists d',
    snd (detect_sleep ascii_runtime (replies (dq "{'status':'unknown'}"))
           (PyStr (py "aGVsbG8=")))
    = Ok (PyDict d') /\
    Dict.get (py "status") d' = Some (PyStr (py "awake")).
Proof.
  apply (unrecognised_status_becomes_awake
           ascii_runtime (replies (dq "{'status':'unknown'}"))
           (PyStr (py "aGVsbG8=")) (dq "{'status':'unknown'}")
           [(py "status", PyStr (py "unknown"))]).
  - model_answers.
  - reflexivity.
  - right. exists (py "unknown"). repeat split; reflexivity.
Defined.

(** C3 as stated fails at its own example: the status "SLEEPING " (capitals
    and a trailing space) is neither "sleeping" nor "awake", and the status
    of the result is sleeping, since the value is lowercased and trimmed
    before it is compared. *)
Lemma shouted_sleeping_stays_sleeping :
  let content := dq "{'status':'SLEEPING '}" in
  reply_json content = Some (PyDict [(py "status", PyStr (py "SLEEPING "))]) /\
  one_of ["sleeping"; "awake"]%string (PyStr (py "SLEEPING ")) = false /\
  snd (detect_sleep ascii_runtime (replies content) (PyStr (py "aGVsbG8=")))
  = Ok (detection_result (py "sleeping") (py "low") (py "Analysis completed")).
Proof. repeat split; reflexivity. Qed.



(** C10, as the code has it.  For every reply that parses as JSON and is not
    an object, or is an object whose status is there and is not a string:
    [detect_sleep] returns, and what it returns is the error result of the
    second handler, with the text of the fault, not a guess of the keyword
    fallback. *)
Theorem ill_typed_reply_is_an_error
    (rt : runtime) (client : str -> api_outcome) (base64_image : pyvalue)
    (content : str) (v : pyvalue) :
  model_replies client base64_image content ->
  reply_json content = Some v ->
  ill_typed v = true ->
  exists f,
    snd (detect_sleep rt client base64_image)
    = Ok (detection_result (py "error") (py "none")
            (py "Error during analysis: " ++ fault_text rt f)).
Proof.
  intros Hans Hjson Hv.
  destruct (detect_sleep_ill_typed rt client base64_image content Hans v Hjson Hv)
    as [f Hf].
  exists f. exact Hf.
Qed.

Lemma ill_typed_reply_is_an_error_witness :
  exists f,
    snd (detect_sleep ascii_runtime (replies (dq "['sleeping', 5]"))
           (PyStr (py "aGVsbG8=")))
    = Ok (detection_result (py "error") (py "none")
            (py "Error during analysis: " ++ fault_text ascii_runtime f)).
Proof.
  apply (ill_typed_reply_is_an_error
           ascii_runtime (replies (dq "['sleeping', 5]"))
           (PyStr (py "aGVsbG8=")) (dq "['sleeping', 5]")
           (PyList [PyStr (py "sleeping"); PyInt 5])).
  - model_answers.
  - reflexivity.
  - reflexivity.
Defined.

(** C10 as stated fails: this reply is valid JSON and is not an object with
    a string for status, since it has no status at all; no fault occurs, the
    status is backfilled and the result is awake. *)
Lemma missing_status_is_no_error :
  let content := dq "{'confidence':'high'}" in
  reply_json content = Some (PyDict [(py "confidence", PyStr (py "high"))]) /\
  Dict.get (py "status") [(py "confidence", PyStr (py "high"))] = None /\
  snd (detect_sleep ascii_runtime (replies content) (PyStr (py "aGVsbG8=")))
  = Ok (PyDict [(py "confidence", PyStr (py "high"));
                (py "status", PyStr (py "awake"));
                (py "details", PyStr (py "Analysis completed"))]).
Proof. repeat split; reflexivity. Qed.

(** The three examples of C10: a bare number, a list, a numeric status. *)
Example bare_number_reply :
  snd (detect_sleep ascii_runtime (replies (py "42")) (PyStr (py "aGVsbG8=")))
  = Ok (on_exception ascii_runtime (Fault (NotAContainer TInt))).
Proof. reflexivity. Qed.

Example list_reply :
  snd (detect_sleep ascii_runtime (replies (py "[1, 2]")) (PyStr (py "aGVsbG8=")))
  = Ok (on_exception ascii_runtime (Fault (BadIndex TList))).
Proof. reflexivity. Qed.

Example number_status_reply :
  snd (detect_sleep ascii_runtime (replies (dq "{'status': 5}"))
         (PyStr (py "aGVsbG8=")))
  = Ok (on_exception ascii_runtime (Fault (NoAttribute TInt (py "lower")))).
Proof. reflexivity. Qed.

(* ================================================================= *)
(** ** The paths of [detect_sleep] *)

Lemma normalize_ok (rt : runtime) (v r : pyvalue) :
  normalize rt v = Ok r ->
  exists d s,
    v = PyDict d /\ field_or "status" "awake" d = PyStr s /\
    r = PyDict (Dict.set (py "status") (PyStr (normal_status rt s)) (filled d)).
Proof.
  intros Hr. destruct (ill_typed v) eqn:Hv.
  - destruct (ill_typed_true rt v Hv) as [f Hf].
    rewrite Hf in Hr. discriminate.
  - destruct (ill_typed_false v Hv) as (d & s & -> & Hs).
    rewrite (normalize_object rt d s Hs) in Hr. injection Hr as <-.
    exists d, s. auto.
Qed.

Lemma normalize_raise (rt : runtime) (v : pyvalue) (e : raised) :
  normalize rt v = Raise e -> exists f, e = Other (Fault f).
Proof.
  intros He. destruct (ill_typed v) eqn:Hv.
  - destruct (ill_typed_true rt v Hv) as [f Hf].
    rewrite Hf in He. injection He as <-. eauto.
  - destruct (ill_typed_false v Hv) as (d & s & -> & Hs).
    rewrite (normalize_object rt d s Hs) in He. discriminate.
Qed.

Lemma try_body_path (rt : runtime) (client : str -> api_outcome)
    (base64_image : pyvalue) :
  body_path rt client base64_image (try_body rt client base64_image).
Proof.
  unfold try_body.
  destruct (image_url base64_image) as [url | e] eqn:Hurl.
  - destruct (client url) as [e | choices] eqn:Hcall.
    + apply client_raised; assumption.
    + destruct choices as [| [content |] more]; cbn [response_text].
      * apply early_fault.
      * assert (Hans : model_replies client base64_image content)
          by (exists url, more; auto).
        fold (result_text_of content). fold (reply_loads rt content).
        destruct (reply_loads rt content) as [v | [| e]] eqn:Hjson;
          cbn [bind].
        -- apply json; assumption.
        -- apply not_json; assumption.
        -- destruct (loads_raise _ _ _ Hjson) as [f ->].
           apply over_limit; assumption.
      * apply early_fault.
  - unfold image_url in Hurl.
    destruct base64_image; cbn [as_str bind] in Hurl;
      try (injection Hurl as <-; apply early_fault).
    destruct (negb (startswith (py "data:") s)); discriminate.
Qed.

(* ================================================================= *)
(** ** The claims about the two handlers *)

(** C5, as the code has it.  For every reply on which [json.loads] raises a
    JSONDecodeError (and so neither of the two exceptions of the limits of
    the interpreter, which go to the second handler), the text that is
    searched is the text that was parsed: the reply trimmed, and without
    its fence lines when it opens with a fence.  If that text lowercased
    contains "sleep", the result is exactly sleeping, medium, "Person
    appears to be sleeping based on image analysis"; otherwise it is
    exactly awake, low, "Could not parse model response clearly". *)
Theorem unparsable_reply_is_guessed
    (rt : runtime) (client : str -> api_outcome) (base64_image : pyvalue)
    (content : str) :
  model_replies client base64_image content ->
  reply_loads rt content = Raise JSONDecodeError ->
  snd (detect_sleep rt client base64_image)
  = Ok (if contains (py "sleep") (lower rt (result_text_of content))
        then detection_result
               (py "sleeping") (py "medium")
               (py "Person appears to be sleeping based on image analysis")
        else detection_result
               (py "awake") (py "low")
               (py "Could not parse model response clearly")).
Proof.
  intros Hans Hjson.
  rewrite (detect_sleep_not_json rt client base64_image content Hans Hjson).
  unfold on_decode_error.
  destruct (contains (py "sleep") (lower rt (result_text_of content)));
    reflexivity.
Qed.

Lemma unparsable_reply_is_guessed_witness :
  snd (detect_sleep ascii_runtime (replies (py "The person is ASLEEP."))
         (PyStr (py "aGVsbG8=")))
  = Ok (detection_result
          (py "sleeping") (py "medium")
          (py "Person appears to be sleeping based on image analysis")).
Proof.
  apply (unparsable_reply_is_guessed
           ascii_runtime (replies (py "The person is ASLEEP."))
           (PyStr (py "aGVsbG8=")) (py "The person is ASLEEP.")).
  - model_answers.
  - reflexivity.
Defined.

(** C5 as stated fails: this reply, a JSON object fenced on one line, is not
    JSON, neither as it is nor after the fence is removed, and its raw text
    contains "sleep"; the result is the awake guess, because the one line
    is a fence line and the text that is searched is empty. *)
Lemma fenced_line_hides_the_keyword :
  let content := dq "```{'status':'sleeping','confidence':'high'}```" in
  Json.loads ascii_runtime content = Raise JSONDecodeError /\
  reply_loads ascii_runtime content = Raise JSONDecodeError /\
  contains (py "sleep") (lower ascii_runtime content) = true /\
  result_text_of content = [] /\
  snd (detect_sleep ascii_runtime (replies content) (PyStr (py "aGVsbG8=")))
  = Ok (detection_result
          (py "awake") (py "low")
          (py "Could not parse model response clearly")).
Proof. repeat split; reflexivity. Qed.

Lemma status_of_result (status confidence details : str) :
  py_getitem (detection_result status confidence details) (py "status")
  = Ok (PyStr status).
Proof. reflexivity. Qed.

(** The status of a guess of the first handler, and of a normalised reply,
    is never "error". *)
Lemma on_decode_error_not_error (rt : runtime) (text : option str) (r : pyvalue) :
  on_decode_error rt text = Ok r ->
  py_getitem r (py "status") <> Ok (PyStr (py "error")).
Proof.
  unfold on_decode_error. destruct text as [t |]; [| discriminate].
  destruct (contains (py "sleep") (lower rt t)); intros Hr;
    injection Hr as <-; rewrite status_of_result; discriminate.
Qed.

Lemma normalize_not_error (rt : runtime) (v r : pyvalue) :
  normalize rt v = Ok r ->
  py_getitem r (py "status") <> Ok (PyStr (py "error")).
Proof.
  intros Hr. destruct (normalize_ok rt v r Hr) as (d & s & _ & _ & ->).
  cbn [py_getitem]. rewrite get_set_same.
  destruct (normal_status_choice rt s) as [-> | ->]; discriminate.
Qed.

(** The fault of a value of the wrong shape is what the normalisation
    raises on it, and a value without one is normalised. *)
Lemma shape_fault_normalize (rt : runtime) (v : pyvalue) (f : fault) :
  shape_fault v = Some f -> normalize rt v = throw f.
Proof.
  destruct v as [| b | z | x | s | items | d]; cbn [shape_fault type_of];
    intros Hf; try (injection Hf as <-; reflexivity).
  - unfold normalize, backfill. cbn [py_in bind].
    destruct (contains (py "status") s); cbn [andb negb py_setitem bind py_in] in *;
      [| injection Hf as <-; reflexivity].
    destruct (contains (py "confidence") s);
      cbn [andb negb py_setitem bind py_in] in *;
      [| injection Hf as <-; reflexivity].
    destruct (contains (py "details") s);
      cbn [andb negb py_setitem bind py_in] in *;
      injection Hf as <-; reflexivity.
  - injection Hf as <-. unfold normalize, backfill. cbn [py_in bind].
    destruct (existsb (is_str (py "status")) items);
      cbn [negb py_setitem bind py_in]; [| reflexivity].
    destruct (existsb (is_str (py "confidence")) items);
      cbn [negb py_setitem bind py_in]; [| reflexivity].
    destruct (existsb (is_str (py "details")) items);
      cbn [negb py_setitem bind py_in]; reflexivity.
  - destruct (Dict.get (py "status") d) as [status |] eqn:Hstatus;
      [| discriminate].
    rewrite (normalize_bad_status rt d status Hstatus).
    + destruct status; try discriminate; injection Hf as <-; reflexivity.
    + intros s ->. discriminate.
Qed.

Lemma shape_fault_none (v : pyvalue) :
  shape_fault v = None -> ill_typed v = false.
Proof.
  destruct v as [| b | z | x | s | items | d]; cbn [shape_fault ill_typed];
    try discriminate.
  - destruct (contains (py "status") s && contains (py "confidence") s
              && contains (py "details") s); discriminate.
  - destruct (Dict.get (py "status") d) as [[| b | z | x | s | items | d'] |];
      try discriminate; reflexivity.
Qed.

(** Each failure is answered by the second handler, with its exception. *)
Lemma failure_is_answered (rt : runtime) (client : str -> api_outcome)
    (base64_image : pyvalue) (e : exception) :
  failure rt client base64_image e ->
  snd (detect_sleep rt client base64_image) = Ok (on_exception rt e).
Proof.
  intros [Hns | url e' Hurl Hcall | url Hurl Hcall | url more Hurl Hcall
          | content f Hans Hloads | content v f Hans Hloads Hshape].
  - unfold detect_sleep, try_body, image_url.
    destruct base64_image; try reflexivity.
    exfalso. eapply Hns. reflexivity.
  - unfold detect_sleep, try_body. rewrite Hurl, Hcall. reflexivity.
  - unfold detect_sleep, try_body. rewrite Hurl, Hcall. reflexivity.
  - unfold detect_sleep, try_body. rewrite Hurl, Hcall. reflexivity.
  - apply (detect_sleep_over_limit rt client base64_image content Hans f Hloads).
  - destruct (try_body_reply rt client base64_image content Hans) as [url Hbody].
    unfold detect_sleep. rewrite Hbody, Hloads. cbn [bind].
    rewrite (shape_fault_normalize rt v f Hshape). reflexivity.
Qed.

(** A result whose status is "error" comes from a failure. *)
Lemma error_is_a_failure (rt : runtime) (client : str -> api_outcome)
    (base64_image r : pyvalue) :
  snd (detect_sleep rt client base64_image) = Ok r ->
  py_getitem r (py "status") = Ok (PyStr (py "error")) ->
  exists e, failure rt client base64_image e.
Proof.
  unfold detect_sleep, try_body.
  destruct (image_url base64_image) as [url | e] eqn:Hurl.
  - destruct (client url) as [[| e] | choices] eqn:Hcall; cbn [snd].
    + discriminate.
    + intros _ _. exists e. apply (call_failed _ _ _ url); assumption.
    + destruct choices as [| [content |] more]; cbn [response_text snd].
      * intros _ _. eexists. apply (no_choice _ _ _ url); assumption.
      * assert (Hans : model_replies client base64_image content)
          by (exists url, more; auto).
        fold (result_text_of content). fold (reply_loads rt content).
        destruct (reply_loads rt content) as [v | [| e]] eqn:Hloads;
          cbn [bind].
        -- destruct (shape_fault v) as [f |] eqn:Hshape.
           ++ intros _ _. eexists.
              apply (wrong_shape _ _ _ content v f); assumption.
           ++ intros Hr Hstatus. exfalso.
              destruct (ill_typed_false v (shape_fault_none v Hshape))
                as (d & s & -> & Hs).
              pose proof (normalize_object rt d s Hs) as Hn.
              rewrite Hn in Hr. injection Hr as <-.
              exact (normalize_not_error rt _ _ Hn Hstatus).
        -- intros Hr Hstatus. exfalso.
           exact (on_decode_error_not_error rt _ r Hr Hstatus).
        -- intros _ _. destruct (loads_raise _ _ _ Hloads) as [f ->].
           eexists. apply (limit_reached _ _ _ content f); assumption.
      * intros _ _. eexists. apply (no_content _ _ _ url more); assumption.
  - intros _ _. eexists. apply argument_not_a_string.
    intros s ->. unfold image_url in Hurl. cbn [as_str bind] in Hurl.
    destruct (negb (startswith (py "data:") s)); discriminate.
Qed.

(** C6, as the code has it.  Unless the client call itself raises a
    JSONDecodeError, [detect_sleep] returns a result whose status is
    "error" exactly when one of these failures occurs: the argument is not
    a string; the call of the client raises an exception; the response has
    no choice, or its first choice has no content; [json.loads] reaches a
    limit of the interpreter on the reply (an integer of more digits than
    the limit, or nesting too deep for the stack); the reply is JSON and is
    not an object, or is an object whose status is not a string.  The
    result is then exactly error, none, "Error during analysis: " followed
    by the text of the exception.  A reply that [json.loads] parses to an
    object with the status "error" gives the status awake. *)
Theorem error_status_iff_failure
    (rt : runtime) (client : str -> api_outcome) (base64_image : pyvalue) :
  (forall url, client url <> ApiRaises JSONDecodeError) ->
  ((exists r, snd (detect_sleep rt client base64_image) = Ok r /\
              py_getitem r (py "status") = Ok (PyStr (py "error")))
   <-> exists e, failure rt client base64_image e) /\
  (forall e, failure rt client base64_image e ->
     snd (detect_sleep rt client base64_image)
     = Ok (detection_result (py "error") (py "none")
             (py "Error during analysis: " ++ exception_text rt e))) /\
  (forall content d,
     model_replies client base64_image content ->
     reply_loads rt content = Ok (PyDict d) ->
     Dict.get (py "status") d = Some (PyStr (py "error")) ->
     exists d',
       snd (detect_sleep rt client base64_image) = Ok (PyDict d') /\
       Dict.get (py "status") d' = Some (PyStr (py "awake"))).
Proof.
  intros _. split; [split |]; [| | split].
  - intros (r & Hr & Hstatus).
    exact (error_is_a_failure rt client base64_image r Hr Hstatus).
  - intros [e He]. exists (on_exception rt e). split.
    + apply failure_is_answered, He.
    + reflexivity.
  - intros e He. apply failure_is_answered, He.
  - intros content d Hans Hjson Hstatus.
    eexists. split.
    + apply (detect_sleep_object rt client base64_image content Hans
               d (py "error") Hjson).
      unfold field_or. rewrite Hstatus. reflexivity.
    + rewrite get_set_same. reflexivity.
Qed.

Lemma error_status_iff_failure_witness :
  let client := fun _ : str => ApiRaises (Other (ClientFailure (py "timed out"))) in
  let img := PyStr (py "aGVsbG8=") in
  ((exists r, snd (detect_sleep ascii_runtime client img) = Ok r /\
              py_getitem r (py "status") = Ok (PyStr (py "error")))
   <-> exists e, failure ascii_runtime client img e) /\
  (forall e, failure ascii_runtime client img e ->
     snd (detect_sleep ascii_runtime client img)
     = Ok (detection_result (py "error") (py "none")
             (py "Error during analysis: " ++ exception_text ascii_runtime e))) /\
  (forall content d,
     model_replies client img content ->
     reply_loads ascii_runtime content = Ok (PyDict d) ->
     Dict.get (py "status") d = Some (PyStr (py "error")) ->
     exists d',
       snd (detect_sleep ascii_runtime client img) = Ok (PyDict d') /\
       Dict.get (py "status") d' = Some (PyStr (py "awake"))).
Proof.
  intros client img.
  apply (error_status_iff_failure ascii_runtime client img).
  intros url. discriminate.
Defined.

(** C6 as stated fails: this reply is a well-formed JSON object that claims
    the status "error", and the status of the result is "error": the
    integer it holds has 4301 digits, one more than the interpreter
    converts, and the ValueError of [json.loads] goes to the second
    handler. *)
Lemma oversized_integer_is_an_error :
  let content :=
    dq "{'status':'error','n':" ++ repeat (chr "1") 4301 ++ py "}" in
  (exists d, reply_json content = Some (PyDict d) /\
             Dict.get (py "status") d = Some (PyStr (py "error"))) /\
  snd (detect_sleep ascii_runtime (replies content) (PyStr (py "aGVsbG8=")))
  = Ok (detection_result (py "error") (py "none")
          (py "Error during analysis: Exceeds the limit (4300 digits) for integer string conversion: value has 4301 digits; use sys.set_int_max_str_digits() to increase the limit")).
Proof.
  intros content. split.
  - eexists. split; vm_compute; reflexivity.
  - vm_compute. reflexivity.
Qed.

(* ================================================================= *)
(** ** The contract of the result *)

Lemma reply_object_of (client : str -> api_outcome) (base64_image : pyvalue)
    (content : str) (d : dict) :
  model_replies client base64_image content ->
  reply_json content = Some (PyDict d) ->
  reply_object client base64_image = Some d.
Proof.
  intros (url & more & Hurl & Hcall) Hjson.
  unfold reply_object. rewrite Hurl, Hcall, Hjson. reflexivity.
Qed.

(** A result written as a literal of the code, with a status from the set
    and a confidence from the set, keeps the contract. *)
Lemma literal_well_formed (client : str -> api_outcome) (base64_image : pyvalue)
    (status confidence details : str) :
  one_of ["sleeping"; "awake"; "error"]%string (PyStr status) = true ->
  one_of ["high"; "medium"; "low"; "none"]%string (PyStr confidence) = true ->
  well_formed client base64_image (detection_result status confidence details).
Proof.
  intros Hs Hc.
  exists [(py "status", PyStr status); (py "confidence", PyStr confidence);
          (py "details", PyStr details)],
         (PyStr status), (PyStr confidence), (PyStr details).
  repeat split; try reflexivity; eauto.
Qed.

Lemma field_or_supplied (client : str -> api_outcome) (base64_image : pyvalue)
    (k default : string) (d : dict) :
  reply_object client base64_image = Some d ->
  field_or k default d = PyStr (py default) \/
  supplied client base64_image k (field_or k default d).
Proof.
  intros Hobj. unfold field_or, supplied.
  destruct (Dict.get (py k) d) as [v |] eqn:E.
  - right. exists d. auto.
  - left. reflexivity.
Qed.

Lemma normalized_well_formed (rt : runtime) (client : str -> api_outcome)
    (base64_image : pyvalue) (d : dict) (s : str) :
  reply_object client base64_image = Some d ->
  well_formed client base64_image
    (PyDict (Dict.set (py "status") (PyStr (normal_status rt s)) (filled d))).
Proof.
  intros Hobj.
  exists (Dict.set (py "status") (PyStr (normal_status rt s)) (filled d)),
         (PyStr (normal_status rt s)),
         (field_or "confidence" "low" d),
         (field_or "details" "Analysis completed" d).
  autorewrite with dict. do 4 (split; [reflexivity |]).
  split; [destruct (normal_status_choice rt s) as [-> | ->]; reflexivity |].
  split.
  - destruct (field_or_supplied client base64_image "confidence" "low" d Hobj)
      as [-> | Hsup]; [left; reflexivity | right; exact Hsup].
  - destruct (field_or_supplied client base64_image
                "details" "Analysis completed" d Hobj)
      as [-> | Hsup]; [left; eauto | right; exact Hsup].
Qed.

(** Whatever [detect_sleep] returns keeps the contract. *)
Lemma detect_sleep_well_formed (rt : runtime) (client : str -> api_outcome)
    (base64_image r : pyvalue) :
  snd (detect_sleep rt client base64_image) = Ok r ->
  well_formed client base64_image r.
Proof.
  unfold detect_sleep.
  pose proof (try_body_path rt client base64_image) as Hpath.
  destruct (try_body rt client base64_image) as [[events text] out].
  cbn [snd]. intros Hr.
  assert (Herror : forall e, well_formed client base64_image (on_exception rt e))
    by (intros e; apply literal_well_formed; reflexivity).
  inversion Hpath; subst.
  - injection Hr as <-. apply Herror.
  - destruct e as [| e].
    + discriminate.
    + injection Hr as <-. apply Herror.
  - unfold on_decode_error in Hr.
    destruct (contains (py "sleep") (lower rt (result_text_of content)));
      injection Hr as <-; apply literal_well_formed; reflexivity.
  - injection Hr as <-. apply Herror.
  - destruct (normalize rt v) as [r' | e] eqn:Hn.
    + injection Hr as <-.
      destruct (normalize_ok rt v r' Hn) as (d & s & -> & Hs & ->).
      apply normalized_well_formed.
      eapply reply_object_of; [eassumption |].
      apply (loads_ok rt). assumption.
    + destruct (normalize_raise rt v e Hn) as [f ->].
      injection Hr as <-. apply Herror.
Qed.

(** [detect_sleep] returns, unless the client call itself raises a
    JSONDecodeError: the first handler then reads [result_text], which is
    not bound yet. *)
Lemma detect_sleep_returns (rt : runtime) (client : str -> api_outcome)
    (base64_image : pyvalue) :
  (forall url, client url <> ApiRaises JSONDecodeError) ->
  exists r, snd (detect_sleep rt client base64_image) = Ok r.
Proof.
  intros Hclient. unfold detect_sleep.
  pose proof (try_body_path rt client base64_image) as Hpath.
  destruct (try_body rt client base64_image) as [[events text] out].
  cbn [snd].
  inversion Hpath; subst.
  - eexists. reflexivity.
  - destruct e as [| e].
    + exfalso. eapply Hclient. eassumption.
    + eexists. reflexivity.
  - unfold on_decode_error.
    destruct (contains (py "sleep") (lower rt (result_text_of content)));
      eexists; reflexivity.
  - eexists. reflexivity.
  - destruct (normalize rt v) as [r' | e] eqn:Hn.
    + eexists. reflexivity.
    + destruct (normalize_raise rt v e Hn) as [f ->]. eexists. reflexivity.
Qed.

(** The bodies that the gateway answers with keep the contract too. *)
Lemma detect_well_formed (rt : runtime) (client : str -> api_outcome)
    (data : pyvalue) (code : N) (body : pyvalue) :
  snd (detect rt client data) = Http code body ->
  exists base64_image, well_formed client base64_image body.
Proof.
  unfold detect.
  assert (Hno : well_formed client PyNone no_image)
    by (apply literal_well_formed; reflexivity).
  assert (Hsmall : well_formed client PyNone too_small)
    by (apply literal_well_formed; reflexivity).
  destruct (negb (truthy data)).
  { cbn [snd]. intros H. injection H as _ <-. eauto. }
  destruct (py_in (py "image") data) as [[|] | e]; cbn [snd];
    try discriminate; [| intros H; injection H as _ <-; eauto].
  destruct (py_getitem data (py "image")) as [base64_image | e]; cbn [snd];
    [| discriminate].
  destruct (raw <- raw_b64 base64_image;; py_len raw) as [size | e]; cbn [snd];
    [| discriminate].
  destruct (size <? 100).
  { cbn [snd]. intros H. injection H as _ <-. eauto. }
  destruct (detect_sleep rt client base64_image) as [events [r | e]] eqn:Hd;
    cbn [snd]; [| discriminate].
  intros H. injection H as _ <-.
  exists base64_image. apply (detect_sleep_well_formed rt).
  rewrite Hd. reflexivity.
Qed.

(** C1, as the code has it.  Unless the client call itself raises a
    JSONDecodeError, [detect_sleep] returns for every argument, every reply
    and every failure, and what it returns is a dict with the three fields
    in which the status is sleeping, awake or error, the confidence is
    high, medium, low or none unless the reply object of the model supplied
    it, and the details are a string unless the reply object supplied them;
    a supplied confidence or details is whatever JSON value the reply
    holds.  Every body that [/detect] answers with is such a dict. *)
Theorem result_contract (rt : runtime) (client : str -> api_outcome) :
  (forall url, client url <> ApiRaises JSONDecodeError) ->
  (forall base64_image,
     exists r, snd (detect_sleep rt client base64_image) = Ok r /\
               well_formed client base64_image r) /\
  (forall data code body,
     snd (detect rt client data) = Http code body ->
     exists base64_image, well_formed client base64_image body).
Proof.
  intros Hclient. split.
  - intros base64_image.
    destruct (detect_sleep_returns rt client base64_image Hclient) as [r Hr].
    exists r. split; [exact Hr |].
    apply (detect_sleep_well_formed rt). exact Hr.
  - intros data code body. apply detect_well_formed.
Qed.

Lemma result_contract_witness :
  let client := replies (dq "{'status':'awake','confidence':'HIGH'}") in
  (forall base64_image,
     exists r, snd (detect_sleep ascii_runtime client base64_image) = Ok r /\
               well_formed client base64_image r) /\
  (forall data code body,
     snd (detect ascii_runtime client data) = Http code body ->
     exists base64_image, well_formed client base64_image body).
Proof.
  intros client.
  apply (result_contract ascii_runtime client).
  intros url. discriminate.
Defined.

(** C1 as stated fails: the confidence of this reply is "HIGH", which is
    none of high, medium, low and none, and it is returned as it is. *)
Lemma shouted_confidence_leaves_the_set :
  let content := dq "{'status':'awake','confidence':'HIGH','details':'eyes open'}" in
  snd (detect_sleep ascii_runtime (replies content) (PyStr (py "aGVsbG8=")))
  = Ok (detection_result (py "awake") (py "HIGH") (py "eyes open")) /\
  enumerated (detection_result (py "awake") (py "HIGH") (py "eyes open")) = false.
Proof. split; reflexivity. Qed.

(* ================================================================= *)
(** ** The gateway *)

Lemma contains_comma (s : str) : contains (py ",") s = true <-> In comma s.
Proof.
  induction s as [| c s IH].
  - simpl. split; [discriminate | contradiction].
  - change (contains (py ",") (c :: s))
      with ((comma =? c) && true || contains (py ",") s).
    rewrite orb_true_iff, andb_true_r, N.eqb_eq, IH.
    simpl. intuition congruence.
Qed.

(** Line 46 on a string: the string when it has no comma, else its part
    after the last comma. *)
Lemma raw_b64_str (img : str) :
  raw_b64 (PyStr img)
  = Ok (PyStr (if contains (py ",") img then last (split comma img) [] else img)).
Proof.
  unfold raw_b64. cbn [py_in bind].
  destruct (contains (py ",") img); reflexivity.
Qed.

(** The size that line 49 reads is at most that of what follows a prefix
    that ends with a comma, and is exactly that when no comma follows. *)
Lemma raw_b64_size (prefix payload : str) :
  (prefix = [] \/ exists p, prefix = p ++ py ",") ->
  exists raw,
    raw_b64 (PyStr (prefix ++ payload)) = Ok (PyStr raw) /\
    (length raw <= length payload)%nat /\
    (~ In comma payload -> raw = payload).
Proof.
  intros Hprefix. rewrite raw_b64_str. eexists. split; [reflexivity |].
  destruct Hprefix as [-> | [p ->]].
  - cbn [app]. destruct (contains (py ",") payload) eqn:E.
    + split; [apply length_last_split |].
      intros Hno. apply contains_comma in E. contradiction.
    + split; [lia | reflexivity].
  - replace ((p ++ py ",") ++ payload) with (p ++ comma :: payload)
      by (rewrite <- app_assoc; reflexivity).
    assert (E : contains (py ",") (p ++ comma :: payload) = true).
    { apply contains_comma, in_or_app. right. left. reflexivity. }
    rewrite E, last_split_app. split; [apply length_last_split |].
    intros Hno. rewrite split_no_sep by exact Hno. reflexivity.
Qed.

(** C7.  A request whose image is a string that, after a prefix ending with
    a comma (if it has one), is shorter than 100 characters is answered
    400 with the fixed body, and neither [detect_sleep] nor the model is
    called. *)
Theorem small_payload_is_refused
    (rt : runtime) (client : str -> api_outcome) (d : dict)
    (prefix payload : str) :
  Dict.get (py "image") d = Some (PyStr (prefix ++ payload)) ->
  (prefix = [] \/ exists p, prefix = p ++ py ",") ->
  (length payload < 100)%nat ->
  detect rt client (PyDict d)
  = ([], Http 400
           (detection_result (py "error") (py "none")
              (py "Image data appears too small or invalid."))).
Proof.
  intros Himage Hprefix Hsize.
  destruct (raw_b64_size prefix payload Hprefix) as (raw & Hraw & Hle & _).
  unfold detect.
  replace (truthy (PyDict d)) with true
    by (destruct d; [discriminate | reflexivity]).
  cbn [negb py_in py_getitem]. unfold Dict.mem. rewrite Himage, Hraw.
  cbn [bind py_len].
  replace (N.of_nat (length raw) <? 100) with true
    by (symmetry; apply N.ltb_lt; lia).
  reflexivity.
Qed.

Lemma small_payload_is_refused_witness :
  detect ascii_runtime (replies (dq "{'status':'awake'}"))
    (PyDict [(py "image", PyStr (py "data:image/png;base64," ++ py "aGVsbG8="))])
  = ([], Http 400
           (detection_result (py "error") (py "none")
              (py "Image data appears too small or invalid."))).
Proof.
  apply (small_payload_is_refused
           ascii_runtime (replies (dq "{'status':'awake'}"))
           [(py "image", PyStr (py "data:image/png;base64," ++ py "aGVsbG8="))]
           (py "data:image/png;base64,") (py "aGVsbG8=")).
  - reflexivity.
  - right. exists (py "data:image/png;base64"). reflexivity.
  - simpl. lia.
Defined.



(* ================================================================= *)
(** ** The URL that is dispatched *)

(** C9.  The one call to the model carries the image string itself when it
    starts with "data:", and the string after "data:image/jpeg;base64,"
    when it does not; a URL that was dispatched is dispatched unchanged
    when it is given again. *)
Theorem dispatched_url
    (rt : runtime) (client : str -> api_outcome) (img : str) :
  (startswith (py "data:") img = true ->
   fst (detect_sleep rt client (PyStr img)) = [ModelCall img]) /\
  (startswith (py "data:") img = false ->
   fst (detect_sleep rt client (PyStr img))
   = [ModelCall (py "data:image/jpeg;base64," ++ img)]) /\
  (forall url,
     fst (detect_sleep rt client (PyStr img)) = [ModelCall url] ->
     fst (detect_sleep rt client (PyStr url)) = [ModelCall url]).
Proof.
  assert (Hcall : forall s url,
            image_url (PyStr s) = Ok url ->
            fst (detect_sleep rt client (PyStr s)) = [ModelCall url]).
  { intros s url Hurl. unfold detect_sleep, try_body. rewrite Hurl.
    destruct (client url) as [e | choices]; [reflexivity |].
    destruct (response_text choices); reflexivity. }
  assert (Hurl : forall s,
            image_url (PyStr s)
            = Ok (if startswith (py "data:") s then s
                  else py "data:image/jpeg;base64," ++ s)).
  { intros s. unfold image_url. cbn [as_str bind].
    destruct (startswith (py "data:") s); reflexivity. }
  split; [| split].
  - intros Hdata. apply Hcall. rewrite Hurl, Hdata. reflexivity.
  - intros Hdata. apply Hcall. rewrite Hurl, Hdata. reflexivity.
  - intros url Hfirst.
    destruct (startswith (py "data:") img) eqn:Hdata.
    + rewrite (Hcall img img) in Hfirst by (rewrite Hurl, Hdata; reflexivity).
      assert (url = img) as -> by congruence.
      apply Hcall. rewrite Hurl, Hdata. reflexivity.
    + rewrite (Hcall img (py "data:image/jpeg;base64," ++ img)) in Hfirst
        by (rewrite Hurl, Hdata; reflexivity).
      assert (url = py "data:image/jpeg;base64," ++ img) as -> by congruence.
      apply Hcall. rewrite Hurl. reflexivity.
Qed.

(* ================================================================= *)
(** ** Further properties of the two functions *)

(** X1.  A body that is falsy, or is an object without the key "image", is
    answered 400 with the fixed "No image data provided" body, and nothing
    is called. *)
Theorem missing_image_is_refused
    (rt : runtime) (client : str -> api_outcome) (data : pyvalue) :
  truthy data = false \/
  (exists d, data = PyDict d /\ Dict.get (py "image") d = None) ->
  detect rt client data
  = ([], Http 400
           (detection_result (py "error") (py "none")
              (py "No image data provided. Send JSON with 'image' key containing base64 data."))).
Proof.
  unfold detect. intros [Hfalsy | (d & -> & Hnone)].
  - rewrite Hfalsy. reflexivity.
  - destruct (truthy (PyDict d)); [| reflexivity].
    cbn [negb py_in]. unfold Dict.mem. rewrite Hnone. reflexivity.
Qed.

Lemma missing_image_is_refused_witness :
  detect ascii_runtime (replies (dq "{'status':'awake'}"))
    (PyDict [(py "picture", PyStr (py "aGVsbG8="))])
  = ([], Http 400
           (detection_result (py "error") (py "none")
              (py "No image data provided. Send JSON with 'image' key containing base64 data."))).
Proof.
  apply (missing_image_is_refused
           ascii_runtime (replies (dq "{'status':'awake'}"))
           (PyDict [(py "picture", PyStr (py "aGVsbG8="))])).
  right. eexists. split; reflexivity.
Defined.

(** X2.  When the client call itself raises a JSONDecodeError, the first
    handler reads [result_text] before any assignment: [detect_sleep] raises
    an UnboundLocalError after the one call to the model, and returns no
    result. *)
Theorem client_decode_error_escapes
    (rt : runtime) (client : str -> api_outcome) (base64_image : pyvalue)
    (url : str) :
  image_url base64_image = Ok url ->
  client url = ApiRaises JSONDecodeError ->
  detect_sleep rt client base64_image
  = ([ModelCall url], throw (Unbound (py "result_text"))).
Proof.
  intros Hurl Hcall. unfold detect_sleep, try_body.
  rewrite Hurl, Hcall. reflexivity.
Qed.

Lemma client_decode_error_escapes_witness :
  detect_sleep ascii_runtime (fun _ => ApiRaises JSONDecodeError)
    (PyStr (py "data:image/png;base64,aGVsbG8="))
  = ([ModelCall (py "data:image/png;base64,aGVsbG8=")],
     throw (Unbound (py "result_text"))).
Proof.
  apply (client_decode_error_escapes
           ascii_runtime (fun _ => ApiRaises JSONDecodeError)
           (PyStr (py "data:image/png;base64,aGVsbG8="))
           (py "data:image/png;base64,aGVsbG8=")); reflexivity.
Defined.

Lemma startswith_app (p s : str) :
  startswith p s = true <-> exists r, s = p ++ r.
Proof.
  revert s. induction p as [| x p IH]; intros s.
  - simpl. split; eauto.
  - destruct s as [| y s]; simpl.
    + split; [discriminate | intros [r Hr]; discriminate].
    + rewrite andb_true_iff, N.eqb_eq, IH. split.
      * intros [-> [r ->]]. eauto.
      * intros [r Hr]. injection Hr as -> ->. eauto.
Qed.

Lemma contains_app (needle hay : str) :
  contains needle hay = true <-> exists a b, hay = a ++ needle ++ b.
Proof.
  induction hay as [| c hay IH].
  - cbn [contains]. rewrite orb_false_r, startswith_app. split.
    + intros [r Hr]. exists [], r. exact Hr.
    + intros (a & b & H). destruct a; [eauto | discriminate].
  - cbn [contains]. rewrite orb_true_iff, startswith_app, IH. split.
    + intros [[r Hr] | (a & b & ->)].
      * exists [], r. exact Hr.
      * exists (c :: a), b. reflexivity.
    + intros (a & b & H). destruct a as [| c' a].
      * left. eauto.
      * right. injection H as _ ->. eauto.
Qed.

(** X3.  On a text that is all ASCII the keyword test of the first handler
    holds exactly when the text has a piece of five letters that spell
    "sleep" in some mixture of capitals and small letters. *)
Theorem keyword_in_any_letter_case (rt : runtime) (text : str) :
  is_ascii text = true ->
  (contains (py "sleep") (lower rt text) = true <->
   exists before word after,
     text = before ++ word ++ after /\
     map lower_ascii_char word = py "sleep").
Proof.
  intros Hascii. rewrite (lower_ascii rt text Hascii), contains_app. split.
  - intros (a & b & H).
    apply map_eq_app in H. destruct H as (before & rest & -> & <- & H).
    apply map_eq_app in H. destruct H as (word & after & -> & Hword & <-).
    exists before, word, after. auto.
  - intros (before & word & after & -> & Hword).
    exists (map lower_ascii_char before), (map lower_ascii_char after).
    rewrite !map_app, Hword. reflexivity.
Qed.

Lemma keyword_in_any_letter_case_witness :
  contains (py "sleep") (lower ascii_runtime (py "He is aSLeeP now")) = true <->
  exists before word after,
    py "He is aSLeeP now" = before ++ word ++ after /\
    map lower_ascii_char word = py "sleep".
Proof.
  apply (keyword_in_any_letter_case ascii_runtime (py "He is aSLeeP now")).
  reflexivity.
Defined.

Lemma set_same (k : str) (v : pyvalue) (d : dict) :
  Dict.get k d = Some v -> Dict.set k v d = d.
Proof.
  induction d as [| [k0 v0] d IH]; simpl.
  - discriminate.
  - destruct (Str.eqb k k0) eqn:E.
    + intros H. injection H as ->. reflexivity.
    + intros H. rewrite (IH H). reflexivity.
Qed.

Lemma setdefault_present (k : str) (v : pyvalue) (d : dict) :
  Dict.mem k d = true -> setdefault k v d = d.
Proof. unfold setdefault. intros ->. reflexivity. Qed.

(** X4.  A reply that [json.loads] parses to a JSON object (the reply is
    JSON, and parsing it reaches no limit of the interpreter) with all
    three fields and a status that, lowercased and trimmed, is sleeping or
    awake comes back as it is but for the status, which is lowercased and
    trimmed; a reply whose status is already one of the two comes back
    unchanged. *)
Theorem complete_reply_is_returned
    (rt : runtime) (client : str -> api_outcome) (base64_image : pyvalue)
    (content : str) (d : dict) (s : str) :
  model_replies client base64_image content ->
  reply_loads rt content = Ok (PyDict d) ->
  Dict.get (py "status") d = Some (PyStr s) ->
  Dict.mem (py "confidence") d = true ->
  Dict.mem (py "details") d = true ->
  strip (lower rt s) = py "sleeping" \/ strip (lower rt s) = py "awake" ->
  snd (detect_sleep rt client base64_image)
  = Ok (PyDict (Dict.set (py "status") (PyStr (strip (lower rt s))) d)) /\
  (s = py "sleeping" \/ s = py "awake" ->
   snd (detect_sleep rt client base64_image) = Ok (PyDict d)).
Proof.
  intros Hans Hjson Hstatus Hconfidence Hdetails Hnormal.
  assert (Hresult :
    snd (detect_sleep rt client base64_image)
    = Ok (PyDict (Dict.set (py "status") (PyStr (strip (lower rt s))) d))).
  { rewrite (detect_sleep_object rt client base64_image content Hans d s Hjson)
      by (unfold field_or; rewrite Hstatus; reflexivity).
    unfold filled.
    rewrite (setdefault_present (py "status"))
      by (unfold Dict.mem; rewrite Hstatus; reflexivity).
    rewrite (setdefault_present (py "confidence")) by exact Hconfidence.
    rewrite (setdefault_present (py "details")) by exact Hdetails.
    unfold normal_status.
    destruct Hnormal as [-> | ->]; reflexivity. }
  split; [exact Hresult |].
  intros Hs. rewrite Hresult.
  assert (Hfixed : strip (lower rt s) = s)
    by (destruct Hs as [-> | ->]; reflexivity).
  rewrite Hfixed, (set_same _ _ _ Hstatus). reflexivity.
Qed.

Lemma complete_reply_is_returned_witness :
  let content := dq "{'status':'sleeping','confidence':'high','details':'eyes closed'}" in
  let d := [(py "status", PyStr (py "sleeping"));
            (py "confidence", PyStr (py "high"));
            (py "details", PyStr (py "eyes closed"))] in
  let result :=
    snd (detect_sleep ascii_runtime (replies content) (PyStr (py "aGVsbG8="))) in
  result
  = Ok (PyDict (Dict.set (py "status")
                  (PyStr (strip (lower ascii_runtime (py "sleeping")))) d)) /\
  (py "sleeping" = py "sleeping" \/ py "sleeping" = py "awake" ->
   result = Ok (PyDict d)).
Proof.
  intros content d result.
  apply (complete_reply_is_returned
           ascii_runtime (replies content) (PyStr (py "aGVsbG8=")) content d
           (py "sleeping")).
  - model_answers.
  - reflexivity.
  - reflexivity.
  - reflexivity.
  - reflexivity.
  - left. reflexivity.
Defined.

(* ================================================================= *)
(** ** Edge cases of [detect_sleep] *)

(** X5.  An argument that is not a string has no [startswith]: the model is
    not called, and the result is the error result with the text of that
    AttributeError. *)
Theorem non_string_argument_is_an_error
    (rt : runtime) (client : str -> api_outcome) (base64_image : pyvalue) :
  (forall s, base64_image <> PyStr s) ->
  detect_sleep rt client base64_image
  = ([], Ok (fault_result rt
               (NoAttribute (type_of base64_image) (py "startswith")))).
Proof.
  intros Hns. unfold detect_sleep, try_body, image_url.
  destruct base64_image; try reflexivity.
  exfalso. eapply Hns. reflexivity.
Qed.

Lemma non_string_argument_is_an_error_witness :
  detect_sleep ascii_runtime (replies (dq "{'status':'sleeping'}"))
    (PyList [PyStr (py "aGVsbG8=")])
  = ([], Ok (detection_result (py "error") (py "none")
               (py "Error during analysis: 'list' object has no attribute 'startswith'"))).
Proof.
  apply (non_string_argument_is_an_error
           ascii_runtime (replies (dq "{'status':'sleeping'}"))
           (PyList [PyStr (py "aGVsbG8=")])).
  intros s. discriminate.
Defined.

(** X6.  A response without choices, or whose first choice has no content,
    gives the error result after the one call to the model: with the text
    of the IndexError of [choices[0]] in the first case, of the
    AttributeError of [None.strip] in the second. *)
Theorem response_without_content_is_an_error
    (rt : runtime) (client : str -> api_outcome) (base64_image : pyvalue)
    (url : str) (choices : list (option str)) :
  image_url base64_image = Ok url ->
  client url = ApiReturns choices ->
  nth_error choices 0 = None \/ nth_error choices 0 = Some None ->
  detect_sleep rt client base64_image
  = ([ModelCall url],
     Ok (fault_result rt
           (match choices with
            | [] => IndexOutOfRange
            | _ :: _ => NoAttribute NoneType (py "strip")
            end))).
Proof.
  intros Hurl Hcall Hchoices. unfold detect_sleep, try_body.
  rewrite Hurl, Hcall.
  destruct choices as [| [content |] more]; cbn in Hchoices.
  - reflexivity.
  - destruct Hchoices; discriminate.
  - reflexivity.
Qed.

Lemma response_without_content_is_an_error_witness :
  detect_sleep ascii_runtime (fun _ => ApiReturns [None; Some (py "awake")])
    (PyStr (py "aGVsbG8="))
  = ([ModelCall (py "data:image/jpeg;base64,aGVsbG8=")],
     Ok (detection_result (py "error") (py "none")
           (py "Error during analysis: 'NoneType' object has no attribute 'strip'"))).
Proof.
  apply (response_without_content_is_an_error
           ascii_runtime (fun _ => ApiReturns [None; Some (py "awake")])
           (PyStr (py "aGVsbG8=")) (py "data:image/jpeg;base64,aGVsbG8=")
           [None; Some (py "awake")]).
  - reflexivity.
  - reflexivity.
  - right. reflexivity.
Defined.

Lemma lstrip_blank (s : str) : blank s = true -> lstrip s = [].
Proof.
  unfold blank. induction s as [| c s IH]; cbn [forallb lstrip].
  - reflexivity.
  - rewrite andb_true_iff. intros [-> Hs]. exact (IH Hs).
Qed.

Lemma strip_blank (s : str) : blank s = true -> strip s = [].
Proof. intros Hs. unfold strip. rewrite (lstrip_blank s Hs). reflexivity. Qed.

(** What the first handler answers when the text it searches is empty. *)
Lemma on_decode_error_empty (rt : runtime) :
  on_decode_error rt (Some []) = Ok awake_guess.
Proof. reflexivity. Qed.

(** X7.  A reply that is empty or all whitespace is not JSON and has no
    keyword: the result is the awake guess. *)
Theorem blank_reply_is_awake
    (rt : runtime) (client : str -> api_outcome) (base64_image : pyvalue)
    (content : str) :
  model_replies client base64_image content ->
  blank content = true ->
  snd (detect_sleep rt client base64_image) = Ok awake_guess.
Proof.
  intros Hans Hblank.
  assert (Htext : result_text_of content = [])
    by (unfold result_text_of; rewrite (strip_blank content Hblank); reflexivity).
  rewrite (detect_sleep_not_json rt client base64_image content Hans)
    by (unfold reply_loads; rewrite Htext; reflexivity).
  rewrite Htext. apply on_decode_error_empty.
Qed.

Lemma blank_reply_is_awake_witness :
  snd (detect_sleep ascii_runtime (replies [32; newline; 9])
         (PyStr (py "aGVsbG8=")))
  = Ok (detection_result
          (py "awake") (py "low") (py "Could not parse model response clearly")).
Proof.
  apply (blank_reply_is_awake
           ascii_runtime (replies [32; newline; 9]) (PyStr (py "aGVsbG8="))
           [32; newline; 9]).
  - model_answers.
  - reflexivity.
Defined.

(** X8.  A reply of one line that opens with a code fence is dropped whole:
    whatever the line holds, JSON or the keyword, the result is the awake
    guess. *)
Theorem one_line_fence_is_awake
    (rt : runtime) (client : str -> api_outcome) (base64_image : pyvalue)
    (content : str) :
  model_replies client base64_image content ->
  startswith (py "```") (strip content) = true ->
  ~ In newline (strip content) ->
  snd (detect_sleep rt client base64_image) = Ok awake_guess.
Proof.
  intros Hans Hfence Hline.
  assert (Htext : result_text_of content = []).
  { unfold result_text_of, strip_fence. rewrite Hfence.
    rewrite (split_no_sep newline _ Hline). cbn [filter].
    rewrite Hfence. reflexivity. }
  rewrite (detect_sleep_not_json rt client base64_image content Hans)
    by (unfold reply_loads; rewrite Htext; reflexivity).
  rewrite Htext. apply on_decode_error_empty.
Qed.

Lemma one_line_fence_is_awake_witness :
  snd (detect_sleep ascii_runtime (replies (py " ```sleeping``` "))
         (PyStr (py "aGVsbG8=")))
  = Ok (detection_result
          (py "awake") (py "low") (py "Could not parse model response clearly")).
Proof.
  apply (one_line_fence_is_awake
           ascii_runtime (replies (py " ```sleeping``` "))
           (PyStr (py "aGVsbG8=")) (py " ```sleeping``` ")).
  - model_answers.
  - reflexivity.
  - vm_compute. intuition discriminate.
Defined.

(** X9.  A fence that is opened and never closed is stripped all the same:
    when the reply is an opening fence line and a body that ends with a
    character that is no space, and no line of the body starts with a
    fence, the body trimmed is what is parsed. *)
Theorem unclosed_fence_is_stripped (tag body : str) (last_char : N) :
  ~ In newline tag ->
  isspace last_char = false ->
  Forall (fun line => startswith (py "```") line = false)
    (split newline (body ++ [last_char])) ->
  result_text_of (py "```" ++ tag ++ [newline] ++ body ++ [last_char])
  = strip (body ++ [last_char]).
Proof.
  intros Htag Hlast Hbody. unfold result_text_of.
  replace (py "```" ++ tag ++ [newline] ++ body ++ [last_char])
    with (96 :: ([96; 96] ++ tag ++ [newline] ++ body) ++ [last_char]).
  2:{ change (py "```") with ([96; 96; 96]). cbn [app].
      rewrite <- !app_assoc. reflexivity. }
  rewrite strip_fixed by (reflexivity || exact Hlast).
  unfold strip_fence.
  replace (96 :: ([96; 96] ++ tag ++ [newline] ++ body) ++ [last_char])
    with ((py "```" ++ tag) ++ newline :: (body ++ [last_char])).
  2:{ change (py "```") with ([96; 96; 96]). cbn [app].
      rewrite <- !app_assoc. reflexivity. }
  replace (startswith (py "```")
             ((py "```" ++ tag) ++ newline :: body ++ [last_char]))
    with true by reflexivity.
  rewrite split_head.
  2:{ intros Hin. cbn in Hin.
      destruct Hin as [H | [H | [H | H]]]; try discriminate. contradiction. }
  cbn [filter].
  replace (startswith (py "```") (py "```" ++ tag)) with true by reflexivity.
  cbn [negb].
  rewrite filter_all.
  2:{ eapply Forall_impl; [| exact Hbody]. cbn. intros line ->. reflexivity. }
  rewrite join_split. reflexivity.
Qed.

Lemma unclosed_fence_is_stripped_witness :
  result_text_of
    (py "```" ++ py "json" ++ [newline] ++ dq "{'status':'awake'" ++ [chr "}"])
  = strip (dq "{'status':'awake'" ++ [chr "}"]).
Proof.
  apply (unclosed_fence_is_stripped
           (py "json") (dq "{'status':'awake'") (chr "}")).
  - vm_compute. intuition discriminate.
  - reflexivity.
  - vm_compute. repeat constructor.
Defined.

(* ================================================================= *)
(** ** How the steps compose *)

Lemma normal_status_fixed (rt : runtime) (s : str) :
  normal_status rt (normal_status rt s) = normal_status rt s.
Proof.
  destruct (normal_status_choice rt s) as [-> | ->]; reflexivity.
Qed.

(** X10.  Normalising is idempotent: a value that the normalisation of
    lines 91-103 returns is returned unchanged when it is normalised
    again. *)
Theorem normalize_is_idempotent (rt : runtime) (v r : pyvalue) :
  normalize rt v = Ok r -> normalize rt r = Ok r.
Proof.
  intros Hr. destruct (normalize_ok rt v r Hr) as (d & s & _ & _ & ->).
  set (d1 := Dict.set (py "status") (PyStr (normal_status rt s)) (filled d)).
  assert (Hstatus : Dict.get (py "status") d1 = Some (PyStr (normal_status rt s)))
    by apply get_set_same.
  assert (Hconfidence : Dict.mem (py "confidence") d1 = true).
  { unfold Dict.mem, d1. autorewrite with dict. reflexivity. }
  assert (Hdetails : Dict.mem (py "details") d1 = true).
  { unfold Dict.mem, d1. autorewrite with dict. reflexivity. }
  rewrite (normalize_object rt d1 (normal_status rt s))
    by (unfold field_or; rewrite Hstatus; reflexivity).
  unfold filled.
  rewrite (setdefault_present (py "status"))
    by (unfold Dict.mem; rewrite Hstatus; reflexivity).
  rewrite (setdefault_present (py "confidence")) by exact Hconfidence.
  rewrite (setdefault_present (py "details")) by exact Hdetails.
  rewrite normal_status_fixed, (set_same _ _ _ Hstatus). reflexivity.
Qed.

Lemma normalize_is_idempotent_witness :
  let r := PyDict [(py "note", PyInt 7);
                   (py "status", PyStr (py "sleeping"));
                   (py "confidence", PyStr (py "low"));
                   (py "details", PyStr (py "Analysis completed"))] in
  normalize ascii_runtime r = Ok r.
Proof.
  intros r.
  apply (normalize_is_idempotent
           ascii_runtime
           (PyDict [(py "note", PyInt 7); (py "status", PyStr (py " Sleeping"))])
           r).
  reflexivity.
Defined.

(** X11.  The prefix is transparent: an image given bare and the same image
    given after "data:image/jpeg;base64," make the same call and get the
    same result. *)
Theorem bare_and_prefixed_agree
    (rt : runtime) (client : str -> api_outcome) (img : str) :
  startswith (py "data:") img = false ->
  detect_sleep rt client (PyStr img)
  = detect_sleep rt client (PyStr (py "data:image/jpeg;base64," ++ img)).
Proof.
  intros Hbare. unfold detect_sleep, try_body, image_url.
  cbn [as_str bind]. rewrite Hbare.
  replace (startswith (py "data:") (py "data:image/jpeg;base64," ++ img))
    with true by reflexivity.
  reflexivity.
Qed.

Lemma bare_and_prefixed_agree_witness :
  let client := fun url : str =>
    if Str.eqb url (py "data:image/jpeg;base64,aGVsbG8=")
    then ApiReturns [Some (dq "{'status':'sleeping'}")]
    else ApiRaises (Other (ClientFailure (py "not found"))) in
  detect_sleep ascii_runtime client (PyStr (py "aGVsbG8="))
  = detect_sleep ascii_runtime client
      (PyStr (py "data:image/jpeg;base64," ++ py "aGVsbG8=")).
Proof.
  intros client.
  apply (bare_and_prefixed_agree ascii_runtime client (py "aGVsbG8=")).
  reflexivity.
Defined.

(** The events of [detect_sleep]: no call, or one call with a data URI. *)
Lemma detect_sleep_events (rt : runtime) (client : str -> api_outcome)
    (base64_image : pyvalue) :
  fst (detect_sleep rt client base64_image) = [] \/
  exists url, fst (detect_sleep rt client base64_image) = [ModelCall url] /\
              startswith (py "data:") url = true.
Proof.
  unfold detect_sleep, try_body, image_url.
  destruct base64_image as [| b | z | f | s | items | d];
    try (left; reflexivity).
  right. cbn [as_str bind].
  destruct (startswith (py "data:") s) eqn:Hdata; cbn [negb].
  - exists s. split; [| exact Hdata].
    destruct (client s) as [e | choices]; [reflexivity |].
    destruct (response_text choices); reflexivity.
  - exists (py "data:image/jpeg;base64," ++ s). split; [| reflexivity].
    destruct (client (py "data:image/jpeg;base64," ++ s)) as [e | choices];
      [reflexivity |].
    destruct (response_text choices); reflexivity.
Qed.

(** X12.  No retry and no stray call: [detect_sleep] calls the model at most
    once, and a request to [/detect] makes no call at all, or calls
    [detect_sleep] once and, through it, the model at most once; every URL
    that reaches the model starts with "data:". *)
Theorem one_call_at_most
    (rt : runtime) (client : str -> api_outcome) (v : pyvalue) :
  (fst (detect_sleep rt client v) = [] \/
   exists url, fst (detect_sleep rt client v) = [ModelCall url] /\
               startswith (py "data:") url = true) /\
  request_events (fst (detect rt client v)).
Proof.
  split; [apply detect_sleep_events |].
  unfold detect, request_events.
  destruct (negb (truthy v)); [left; reflexivity |].
  destruct (py_in (py "image") v) as [[|] | e]; try (left; reflexivity).
  destruct (py_getitem v (py "image")) as [img | e]; [| left; reflexivity].
  destruct (raw <- raw_b64 img;; py_len raw) as [size | e];
    [| left; reflexivity].
  destruct (size <? 100); [left; reflexivity |].
  right.
  destruct (detect_sleep_events rt client img) as [Hnone | (url & Hone & Hdata)];
    destruct (detect_sleep rt client img) as [events ending];
    cbn [fst] in *; subst events.
  - left. exists img. reflexivity.
  - right. exists img, url. split; [reflexivity | exact Hdata].
Qed.

(* ================================================================= *)
(** ** Every answer of the gateway *)

(** The operations raise faults of the interpreter only. *)
Lemma py_in_raise (k : str) (v : pyvalue) (e : raised) :
  py_in k v = Raise e -> e = Other (Fault (NotAContainer (type_of v))).
Proof.
  destruct v; cbn [py_in]; intros H; try discriminate;
    injection H as <-; reflexivity.
Qed.

Lemma py_getitem_ok (v : pyvalue) (k : str) (x : pyvalue) :
  py_getitem v k = Ok x -> exists d, v = PyDict d /\ Dict.get k d = Some x.
Proof.
  destruct v as [| b | z | f | s | items | d]; cbn [py_getitem];
    try discriminate.
  destruct (Dict.get k d) as [y |] eqn:E; [| discriminate].
  intros H. injection H as <-. eauto.
Qed.

Lemma py_getitem_raise (v : pyvalue) (k : str) (e : raised) :
  py_getitem v k = Raise e -> exists f, e = Other (Fault f).
Proof.
  destruct v as [| b | z | f | s | items | d]; cbn [py_getitem]; intros H;
    try (injection H as <-; eauto).
  destruct (Dict.get k d); [discriminate | injection H as <-; eauto].
Qed.

Lemma size_raise (v : pyvalue) (e : raised) :
  (raw <- raw_b64 v;; py_len raw) = Raise e -> exists f, e = Other (Fault f).
Proof.
  unfold raw_b64.
  destruct v as [| b | z | f | s | items | d]; cbn [py_in bind]; intros H;
    try (injection H as <-; eauto).
  - destruct (contains (py ",") s); cbn [as_str bind py_len] in H; discriminate.
  - destruct (existsb (is_str (py ",")) items); cbn [as_str bind py_len] in H;
      [injection H as <-; eauto | discriminate].
  - destruct (Dict.mem (py ",") d); cbn [as_str bind py_len] in H;
      [injection H as <-; eauto | discriminate].
Qed.

(** X13.  Every answer of [/detect] is one of four: a 400 with one of the
    two fixed bodies and no call; a fault of the interpreter that leaves
    the view before any call; or, for a body that is an object whose image
    measures 100 or more, the outcome of the one call of [detect_sleep] on
    that image, its result as the body of a 200 or its exception. *)
Theorem answers_of_detect
    (rt : runtime) (client : str -> api_outcome) (data : pyvalue) :
  detect rt client data = ([], Http 400 no_image) \/
  detect rt client data = ([], Http 400 too_small) \/
  (exists f, detect rt client data = ([], Unhandled (Other (Fault f)))) \/
  (exists d img size,
     data = PyDict d /\
     Dict.get (py "image") d = Some img /\
     (raw <- raw_b64 img;; py_len raw) = Ok size /\
     100 <= size /\
     detect rt client data
     = (DetectorCall img :: fst (detect_sleep rt client img),
        match snd (detect_sleep rt client img) with
        | Ok result => Http 200 result
        | Raise e => Unhandled e
        end)).
Proof.
  unfold detect.
  destruct (negb (truthy data)); [left; reflexivity |].
  destruct (py_in (py "image") data) as [[|] | e] eqn:Hin.
  2:{ left. reflexivity. }
  2:{ right. right. left. rewrite (py_in_raise _ _ _ Hin). eauto. }
  destruct (py_getitem data (py "image")) as [img | e] eqn:Hget.
  2:{ right. right. left.
      destruct (py_getitem_raise _ _ _ Hget) as [f ->]. eauto. }
  destruct (py_getitem_ok _ _ _ Hget) as (d & -> & Himage).
  destruct (raw <- raw_b64 img;; py_len raw) as [size | e] eqn:Hsize.
  2:{ right. right. left.
      destruct (size_raise _ _ Hsize) as [f ->]. eauto. }
  destruct (size <? 100) eqn:Hsmall.
  - right. left. reflexivity.
  - right. right. right. exists d, img, size.
    apply N.ltb_ge in Hsmall.
    repeat split; try assumption.
    destruct (detect_sleep rt client img) as [events ending]. reflexivity.
Qed.

(** X14.  A request whose body is an object with a string for image is
    always answered, with 400 or with 200, unless the client call itself
    raises a JSONDecodeError: no such request makes the view raise. *)
Theorem string_image_is_answered
    (rt : runtime) (client : str -> api_outcome) (d : dict) (img : str) :
  Dict.get (py "image") d = Some (PyStr img) ->
  (forall url, client url <> ApiRaises JSONDecodeError) ->
  exists code body,
    snd (detect rt client (PyDict d)) = Http code body /\
    (code = 400 \/ code = 200).
Proof.
  intros Himage Hclient. unfold detect.
  replace (truthy (PyDict d)) with true
    by (destruct d; [discriminate | reflexivity]).
  cbn [negb py_in py_getitem]. unfold Dict.mem. rewrite Himage, raw_b64_str.
  cbn [bind py_len].
  destruct (_ <? 100).
  - exists 400, too_small. auto.
  - destruct (detect_sleep_returns rt client (PyStr img) Hclient) as [r Hr].
    destruct (detect_sleep rt client (PyStr img)) as [events ending].
    cbn [snd] in *. subst ending. exists 200, r. auto.
Qed.

Lemma string_image_is_answered_witness :
  let client := fun _ : str => ApiRaises (Other (ClientFailure (py "timed out"))) in
  exists code body,
    snd (detect ascii_runtime client
           (PyDict [(py "image", PyStr (repeat 65 120))]))
    = Http code body /\
    (code = 400 \/ code = 200).
Proof.
  intros client.
  apply (string_image_is_answered
           ascii_runtime client [(py "image", PyStr (repeat 65 120))]
           (repeat 65 120)).
  - reflexivity.
  - intros url. discriminate.
Defined.

(** X15.  The view raises on what [in] does not take: a truthy body that
    is a number or [true], and an object body whose image is [null], a
    number or a boolean, make it raise the TypeError of the [in] test, and
    nothing is called. *)
Theorem scalars_make_the_view_raise
    (rt : runtime) (client : str -> api_outcome) (data v : pyvalue) :
  not_a_container v = true ->
  (data = v /\ truthy v = true) \/
  (exists d, data = PyDict d /\ Dict.get (py "image") d = Some v) ->
  detect rt client data
  = ([], Unhandled (Other (Fault (NotAContainer (type_of v))))).
Proof.
  intros Hv [[-> Htruthy] | (d & -> & Himage)]; unfold detect.
  - rewrite Htruthy. destruct v; try discriminate; reflexivity.
  - replace (truthy (PyDict d)) with true
      by (destruct d; [discriminate | reflexivity]).
    cbn [negb py_in py_getitem]. unfold Dict.mem. rewrite Himage.
    unfold raw_b64. destruct v; try discriminate; reflexivity.
Qed.

Lemma scalars_make_the_view_raise_witness :
  detect ascii_runtime (replies (dq "{'status':'awake'}"))
    (PyDict [(py "image", PyNone)])
  = ([], Unhandled (Other (Fault (NotAContainer NoneType)))).
Proof.
  apply (scalars_make_the_view_raise
           ascii_runtime (replies (dq "{'status':'awake'}"))
           (PyDict [(py "image", PyNone)]) PyNone).
  - reflexivity.
  - right. eexists. split; reflexivity.
Defined.

(** X16.  An image string that ends with a comma is refused as too small
    whatever its length: what is measured is the empty text after the last
    comma. *)
Theorem trailing_comma_is_refused
    (rt : runtime) (client : str -> api_outcome) (d : dict) (s : str) :
  Dict.get (py "image") d = Some (PyStr (s ++ py ",")) ->
  detect rt client (PyDict d) = ([], Http 400 too_small).
Proof.
  intros Himage.
  destruct (raw_b64_size (s ++ py ",") []) as (raw & Hraw & Hle & _).
  { right. exists s. reflexivity. }
  rewrite app_nil_r in Hraw.
  destruct raw as [| c raw]; [| cbn in Hle; lia].
  unfold detect.
  replace (truthy (PyDict d)) with true
    by (destruct d; [discriminate | reflexivity]).
  cbn [negb py_in py_getitem]. unfold Dict.mem. rewrite Himage, Hraw.
  reflexivity.
Qed.

Lemma trailing_comma_is_refused_witness :
  detect ascii_runtime (replies (dq "{'status':'awake'}"))
    (PyDict [(py "image", PyStr (repeat 65 150 ++ py ","))])
  = ([], Http 400 too_small).
Proof.
  apply (trailing_comma_is_refused
           ascii_runtime (replies (dq "{'status':'awake'}"))
           [(py "image", PyStr (repeat 65 150 ++ py ","))] (repeat 65 150)).
  reflexivity.
Defined.

(** X17.  Only the image counts: two object bodies that hold the same
    value under "image" get the same answer and make the same calls,
    whatever else they hold. *)
Theorem other_keys_are_ignored
    (rt : runtime) (client : str -> api_outcome) (d d' : dict) (v : pyvalue) :
  Dict.get (py "image") d = Some v ->
  Dict.get (py "image") d' = Some v ->
  detect rt client (PyDict d) = detect rt client (PyDict d').
Proof.
  intros Hd Hd'. unfold detect.
  replace (truthy (PyDict d)) with true
    by (destruct d; [discriminate | reflexivity]).
  replace (truthy (PyDict d')) with true
    by (destruct d'; [discriminate | reflexivity]).
  cbn [negb py_in py_getitem]. unfold Dict.mem. rewrite Hd, Hd'.
  reflexivity.
Qed.

Lemma other_keys_are_ignored_witness :
  let client := replies (dq "{'status':'sleeping'}") in
  detect ascii_runtime client
    (PyDict [(py "image", PyStr (repeat 65 120))])
  = detect ascii_runtime client
      (PyDict [(py "user", PyStr (py "ann"));
               (py "image", PyStr (repeat 65 120));
               (py "retry", PyBool true)]).
Proof.
  intros client.
  apply (other_keys_are_ignored
           ascii_runtime client
           [(py "image", PyStr (repeat 65 120))]
           [(py "user", PyStr (py "ann"));
            (py "image", PyStr (repeat 65 120));
            (py "retry", PyBool true)]
           (PyStr (repeat 65 120))); reflexivity.
Defined.
